(** * Verification of the timekpr-ui reconciliation core

    Shallow embedding of the Rust sources of timekpr-ui-backend:
    - the time-window codec ([UserDailyTimeInterval::to_timekpr_format],
      [is_valid_interval]) of src/database/models.rs;
    - the agent protocol adapter (src/services/ssh.rs and the older
      src/ssh.rs): weekly limits, allowed hours, status parsing;
    - the background scheduler (src/services/scheduler.rs and src/scheduler.rs);
    - the interval update handler of src/handlers/api.rs.

    Machine integers are [Z]; Rust [f64] is the primitive binary64 [float];
    a Rust [HashMap] is a stdpp [gmap]; strings are Stdlib [string]s
    (ASCII text).  Remote commands are not run: each remote call is given
    its outcome, as the process layer would report it. *)

From Stdlib Require Import ZArith List Ascii String Bool Lia.
From Corelib Require Import PrimFloat FloatOps SpecFloat.
From stdpp Require Import base gmap strings.

Import ListNotations.
Open Scope Z_scope.

(** String concatenation ([format!] pieces); [++] stays list append. *)
Infix "+++" := String.append (at level 60, right associativity).

(* ------------------------------------------------------------------ *)
(** ** Formatting helpers shared by the modules below *)

Module Fmt.

(** Decimal digits of a non-negative integer, most significant first,
    prepended to [acc].  [fuel] bounds the number of digits. *)
Fixpoint digits (fuel : nat) (n : Z) (acc : string) : string :=
  match fuel with
  | O => acc
  | S f =>
      let acc' := String (ascii_of_nat (48 + Z.to_nat (n mod 10))) acc in
      if n <? 10 then acc' else digits f (n / 10) acc'
  end.

(** [i32::to_string] / [i64::to_string] / [usize::to_string]: decimal
    with a leading [-] for negative values (40 digits cover i64). *)
Definition z_to_string (z : Z) : string :=
  if z <? 0 then String "-" (digits 40 (- z) EmptyString)
  else digits 40 z EmptyString.

(** [items.join(sep)] *)
Fixpoint join (sep : string) (l : list string) : string :=
  match l with
  | [] => EmptyString
  | [x] => x
  | x :: rest => x +++ sep +++ join sep rest
  end.

End Fmt.

(* ------------------------------------------------------------------ *)
(** ** Time-window codec (src/database/models.rs) *)

Module Codec.
Import Fmt.

(** [struct UserDailyTimeInterval]; timestamps are seconds as [Z]. *)
Record UserDailyTimeInterval := mkInterval {
  id : Z;
  user_id : Z;
  day_of_week : Z;
  start_hour : Z;
  start_minute : Z;
  end_hour : Z;
  end_minute : Z;
  is_enabled : bool;
  is_synced : bool;
  last_synced : option Z;
  last_modified : Z
}.

(** The Rust range [a..b]: [a, a+1, ..., b-1], empty when [b <= a]. *)
Fixpoint range_from (a : Z) (n : nat) : list Z :=
  match n with
  | O => []
  | S k => a :: range_from (a + 1) k
  end.

Definition range (a b : Z) : list Z := range_from a (Z.to_nat (b - a)).

(** i32 arithmetic of a release build: results wrap modulo 2^32. *)
Definition wrap32 (z : Z) : Z := (z + 2 ^ 31) mod 2 ^ 32 - 2 ^ 31.

(** [UserDailyTimeInterval::is_valid_interval] *)
Definition is_valid_interval (w : UserDailyTimeInterval) : bool :=
  let start_minutes := wrap32 (wrap32 (start_hour w * 60) + start_minute w) in
  let end_minutes := wrap32 (wrap32 (end_hour w * 60) + end_minute w) in
  (start_minutes <? end_minutes) &&
  (0 <=? start_minutes) && (start_minutes <? 1440) &&
  (0 <=? end_minutes) && (end_minutes <? 1440).

(** [format!("{}[{}-{}]", h, a, b)] *)
Definition bracket (h a b : Z) : string :=
  z_to_string h +++ "[" +++ z_to_string a +++ "-" +++ z_to_string b +++ "]".

(** [UserDailyTimeInterval::to_timekpr_format] *)
Definition to_timekpr_format (w : UserDailyTimeInterval) : option (list string) :=
  if negb (is_enabled w) then None
  else
    let sh := start_hour w in
    let sm := start_minute w in
    let eh := end_hour w in
    let em := end_minute w in
    Some
      (if (sm =? 0) && (em =? 0) then
         (* Full hour intervals *)
         map z_to_string (range sh eh)
       else if sh =? eh then
         [bracket sh sm em]
       else
         (* First hour *)
         (if sm =? 0 then [z_to_string sh] else [bracket sh sm 59])
         (* Full hours in between *)
         ++ map z_to_string (range (sh + 1) eh)
         (* Last hour *)
         ++ (if 0 <? em then [bracket eh 0 em] else [])).

(** The window of the spec's examples, enabled, for day 1. *)
Definition window (sh sm eh em : Z) : UserDailyTimeInterval :=
  mkInterval 0 0 1 sh sm eh em true false None 0.

(** The window invariant of the data model, as the spec words it:
    minute offsets since midnight, start before end, both in [0,1440). *)
Definition window_invariant (w : UserDailyTimeInterval) : Prop :=
  let s := start_hour w * 60 + start_minute w in
  let e := end_hour w * 60 + end_minute w in
  0 <= s /\ s < e /\ e < 1440.

(** Tokens of the agent's hour notation, as the spec describes them. *)
Inductive token :=
  | Whole (h : Z)            (* "{h}" *)
  | Part (h a b : Z).        (* "{h}[{a}-{b}]" *)

Definition render (t : token) : string :=
  match t with
  | Whole h => z_to_string h
  | Part h a b => bracket h a b
  end.

(** Whole hours [a <= h < b], listed upward. *)
Definition hours_between (a b : Z) : list Z :=
  map (fun k => a + Z.of_nat k) (seq 0 (Z.to_nat (b - a))).

(** The encoding as the spec (section 4.2) states it. *)
Definition spec_tokens (w : UserDailyTimeInterval) : list token :=
  let sh := start_hour w in
  let sm := start_minute w in
  let eh := end_hour w in
  let em := end_minute w in
  if (sm =? 0) && (em =? 0) then map Whole (hours_between sh eh)
  else if sh =? eh then [Part sh sm em]
  else [if sm =? 0 then Whole sh else Part sh sm 59]
       ++ map Whole (hours_between (sh + 1) eh)
       ++ (if 0 <? em then [Part eh 0 em] else []).

End Codec.

(* ------------------------------------------------------------------ *)
(** ** Remote calls *)

Module Remote.

(** What [execute_ssh_command] (src/services/ssh.rs) reports for one
    command line: [Err(e)] when the ssh process cannot be run (missing key,
    spawn failure), otherwise the exit code ([-1] when killed by a signal)
    with standard output and standard error. *)
Inductive exec_result :=
  | ExecErr (msg : string)
  | ExecOk (exit_code : Z) (stdout stderr : string).

(** A remote command whose agent accepted it: it ran and exited with 0. *)
Definition call_succeeded (r : exec_result) : bool :=
  match r with
  | ExecOk c _ _ => c =? 0
  | ExecErr _ => false
  end.

(** The remote side of one adapter operation: the outcome of every command
    line the adapter may send ([sudo ...] retries included). *)
Definition remote := string -> exec_result.

End Remote.

(* ------------------------------------------------------------------ *)
(** ** Weekly limits: [SSHClient::set_weekly_time_limits] *)

Module Weekly.
Import Fmt Remote.

(** Rust's [f as i64]: truncation toward zero, saturating at the bounds of
    i64, NaN to 0. *)
Definition i64_min : Z := - 2 ^ 63.
Definition i64_max : Z := 2 ^ 63 - 1.

Definition f64_as_i64 (f : float) : Z :=
  match Prim2SF f with
  | S754_zero _ => 0
  | S754_infinity s => if s then i64_min else i64_max
  | S754_nan => 0
  | S754_finite s m e =>
      let t := if 0 <=? e then Z.shiftl (Zpos m) e else Z.shiftr (Zpos m) (- e) in
      let z := if s then - t else t in
      Z.max i64_min (Z.min i64_max z)
  end.

(** [let day_order = ["monday", ..., "sunday"]] *)
Definition day_order : list string :=
  ["monday"; "tuesday"; "wednesday"; "thursday"; "friday"; "saturday"; "sunday"]%string.

(** [(hours * 3600.0) as i64] *)
Definition hours_to_seconds (hours : float) : Z :=
  f64_as_i64 (PrimFloat.mul hours 3600%float).

(** Body of the loop [for (i, day) in day_order.iter().enumerate()]:
    pushes onto [allowed_days] and [time_limits]. *)
Definition day_step (schedule : gmap string float)
    (acc : list string * list string) (iday : nat * string)
    : list string * list string :=
  let '(allowed_days, time_limits) := acc in
  let '(i, day) := iday in
  match schedule !! day with
  | Some hours =>
      if PrimFloat.ltb 0%float hours then
        (allowed_days ++ [z_to_string (Z.of_nat i + 1)],
         time_limits ++ [z_to_string (hours_to_seconds hours)])
      else acc
  | None => acc
  end.

(** [enumerate()] *)
Definition enumerate {A} (l : list A) : list (nat * A) :=
  combine (seq 0 (length l)) l.

(** The two argument lists built by [set_weekly_time_limits]
    (identical in src/services/ssh.rs and src/ssh.rs). *)
Definition weekly_args (schedule : gmap string float) : list string * list string :=
  fold_left (day_step schedule) (enumerate day_order) ([], []).

Definition days_command (username : string) (allowed_days : list string) : string :=
  "timekpra --setalloweddays " +++ username +++ " '" +++ join ";" allowed_days +++ "'".

Definition limits_command (username : string) (time_limits : list string) : string :=
  "timekpra --settimelimits " +++ username +++ " '" +++ join ";" time_limits +++ "'".

Definition err_text (r : exec_result) : string :=
  match r with ExecErr m => m | ExecOk _ _ e => e end.

(** One step of the form
    [if let Err(e) = exec(cmd) { if let Err(_) = exec("sudo " + cmd) { fail(e) } }]:
    the commands sent, and [Some e] when both attempts failed to run. *)
Definition run_with_sudo_retry (exec : remote) (cmd : string)
    : list string * option string :=
  match exec cmd with
  | ExecOk _ _ _ => ([cmd], None)
  | ExecErr e =>
      match exec ("sudo " +++ cmd) with
      | ExecOk _ _ _ => ([cmd; "sudo " +++ cmd], None)
      | ExecErr _ => ([cmd; "sudo " +++ cmd], Some e)
      end
  end.

(** [format!("{:?}", v)] for a [Vec<String>] whose items hold only digits
    and ['-'] (nothing that [Debug] escapes): each item in double quotes,
    separated by [", "], in brackets. *)
Definition debug_strings (v : list string) : string :=
  let q := String (ascii_of_nat 34) EmptyString in
  "[" +++ join ", " (map (fun x => q +++ x +++ q) v) +++ "]".

(** [SSHClient::set_weekly_time_limits] of src/services/ssh.rs: the
    commands sent, in order, and the returned [(ok, message)]. *)
Definition set_weekly_time_limits (exec : remote) (username : string)
    (schedule : gmap string float) : list string * (bool * string) :=
  let '(allowed_days, time_limits) := weekly_args schedule in
  match allowed_days with
  | [] => ([], (false, "No days with time limits configured"))
  | _ =>
      let dcmd := days_command username allowed_days in
      let '(sent1, r1) := run_with_sudo_retry exec dcmd in
      match r1 with
      | Some e => (sent1, (false, "Failed to set allowed days: " +++ e))
      | None =>
          let lcmd := limits_command username time_limits in
          let '(sent2, r2) := run_with_sudo_retry exec lcmd in
          match r2 with
          | Some e => (sent1 ++ sent2, (false, "Failed to set time limits: " +++ e))
          | None =>
              (sent1 ++ sent2,
               (true, "Successfully configured daily time limits for " +++ username
                      +++ ". Days: " +++ join ";" allowed_days
                      +++ ", Limits: " +++ debug_strings time_limits))
          end
      end
  end.

(** [f.round()] for a finite float: the nearest integer, halves away
    from zero (the [round(hours*3600)] of the spec). *)
Definition f64_round (f : float) : Z :=
  match Prim2SF f with
  | S754_finite s m e =>
      let a :=
        if 0 <=? e then Z.shiftl (Zpos m) e
        else
          let t := Z.shiftr (Zpos m) (- e) in
          let r := Zpos m - Z.shiftl t (- e) in
          if 2 * r <? Z.shiftl 1 (- e) then t else t + 1 in
      if s then - a else a
  | _ => 0
  end.

(** The weekly-hours conversion as the spec (section 4.2) states it: the
    weekdays with [hours > 0], their 1-based index and [round(hours*3600)]. *)
Definition select_day (schedule : gmap string float) (iday : nat * string)
    : option (nat * float) :=
  let '(i, day) := iday in
  match schedule !! day with
  | Some h => if PrimFloat.ltb 0%float h then Some (i, h) else None
  | None => None
  end.

Definition spec_selected (schedule : gmap string float) : list (nat * float) :=
  omap (select_day schedule) (enumerate day_order).

Definition spec_weekly_args (schedule : gmap string float) : list string * list string :=
  (map (fun '(i, _) => z_to_string (Z.of_nat i + 1)) (spec_selected schedule),
   map (fun '(_, h) => z_to_string (f64_round (PrimFloat.mul h 3600%float)))
       (spec_selected schedule)).

End Weekly.

(* ------------------------------------------------------------------ *)
(** ** Daily windows: [SSHClient::set_allowed_hours] (src/services/ssh.rs) *)

Module Hours.
Import Fmt Remote Codec.

(** [interval.get_day_name()] *)
Definition get_day_name (w : UserDailyTimeInterval) : string :=
  match day_of_week w with
  | 1 => "Monday" | 2 => "Tuesday" | 3 => "Wednesday" | 4 => "Thursday"
  | 5 => "Friday" | 6 => "Saturday" | 7 => "Sunday"
  | _ => "Unknown"
  end.

Definition hours_command (username : string) (day_num : Z) (hour_string : string) : string :=
  "timekpra --setallowedhours " +++ username +++ " " +++ z_to_string day_num
  +++ " '" +++ hour_string +++ "'".

(** [(0..24).map(|h| h.to_string()).collect::<Vec<_>>().join(";")] *)
Definition full_day_hours : string := join ";" (map z_to_string (range 0 24)).

(** Loop state: [success_count], [error_messages], and the commands sent. *)
Record hstate := mkH { success_count : Z; error_messages : list string; sent : list string }.

Definition push_err (st : hstate) (m : string) : hstate :=
  mkH (success_count st) (error_messages st ++ [m]) (sent st).
Definition send (st : hstate) (c : string) : hstate :=
  mkH (success_count st) (error_messages st) (sent st ++ [c]).
Definition count_ok (st : hstate) : hstate :=
  mkH (success_count st + 1) (error_messages st) (sent st).

(** Body of [for day_num in 1..=7]. *)
Definition hours_day (exec : remote) (username : string)
    (intervals : gmap Z UserDailyTimeInterval) (st : hstate) (day_num : Z) : hstate :=
  match intervals !! day_num with
  | None => st
  | Some interval =>
      if is_enabled interval && is_valid_interval interval then
        match to_timekpr_format interval with
        | None => st
        | Some hour_specs =>
            let command := hours_command username day_num (join ";" hour_specs) in
            let st := send st command in
            match exec command with
            | ExecOk exit_code _ _ =>
                if negb (exit_code =? 0) then
                  let sudo_command := "sudo " +++ command in
                  let st := send st sudo_command in
                  match exec sudo_command with
                  | ExecOk exit_code2 _ stderr =>
                      if negb (exit_code2 =? 0) then
                        push_err st (get_day_name interval +++ ": " +++ stderr)  (* continue *)
                      else count_ok st
                  | ExecErr e =>
                      push_err st (get_day_name interval +++ ": Connection error: " +++ e)
                  end
                else count_ok st
            | ExecErr e =>
                push_err st (get_day_name interval +++ ": Connection error: " +++ e)
            end
        end
      else
        (* Set full day access for disabled intervals *)
        let command := hours_command username day_num full_day_hours in
        let st := send st command in
        match exec command with
        | ExecOk _ _ _ => count_ok st                 (* .is_ok() *)
        | ExecErr _ => st
        end
  end.

(** [SSHClient::set_allowed_hours]: the commands sent and [(ok, message)]. *)
Definition set_allowed_hours (exec : remote) (username : string)
    (intervals : gmap Z UserDailyTimeInterval) : list string * (bool * string) :=
  let st := fold_left (hours_day exec username intervals) (range 1 8) (mkH 0 [] []) in
  (sent st,
   if 0 <? success_count st then
     (true, "Successfully configured allowed hours for " +++ username
            +++ ". Days configured: " +++ z_to_string (success_count st) +++ "/7")
   else (false, "Failed to configure allowed hours: " +++ join "; " (error_messages st))).

(** Per weekday, whether the agent accepted the day's setting: a command
    the code sends for that day ran and exited with 0 (for an enabled window
    the [sudo] retry counts too; the full-day command has no retry). *)
Definition day_applied (exec : remote) (username : string)
    (intervals : gmap Z UserDailyTimeInterval) (day_num : Z) : bool :=
  match intervals !! day_num with
  | None => false
  | Some interval =>
      if is_enabled interval && is_valid_interval interval then
        match to_timekpr_format interval with
        | Some hs =>
            let command := hours_command username day_num (join ";" hs) in
            call_succeeded (exec command) || call_succeeded (exec ("sudo " +++ command))
        | None => false
        end
      else call_succeeded (exec (hours_command username day_num full_day_hours))
  end.

End Hours.

(* ------------------------------------------------------------------ *)
(** ** Rust [str] operations on ASCII text *)

Module Str.

(** [s.split(c)]: the pieces between occurrences of [c] (at least one). *)
Fixpoint split_char (c : ascii) (s : string) : list string :=
  match s with
  | EmptyString => [EmptyString]
  | String d rest =>
      if Ascii.eqb c d then EmptyString :: split_char c rest
      else
        match split_char c rest with
        | p :: ps => String d p :: ps
        | [] => [String d EmptyString]
        end
  end.

Fixpoint last_char (s : string) : option ascii :=
  match s with
  | EmptyString => None
  | String c EmptyString => Some c
  | String _ rest => last_char rest
  end.

Fixpoint drop_last_char (s : string) : string :=
  match s with
  | EmptyString => EmptyString
  | String _ EmptyString => EmptyString
  | String c rest => String c (drop_last_char rest)
  end.

(** [line.strip_suffix('\r').unwrap_or(line)] *)
Definition strip_cr (l : string) : string :=
  match last_char l with
  | Some c => if Ascii.eqb c "013"%char then drop_last_char l else l
  | None => l
  end.

(** [s.lines()]: split at ['\n']; a line ended by ['\n'] loses one trailing
    ['\r']; a final empty piece (text ending in ['\n'], or empty text) is
    not a line. *)
Fixpoint lines_of (ps : list string) : list string :=
  match ps with
  | [] => []
  | [p] => if String.eqb p EmptyString then [] else [p]
  | p :: rest => strip_cr p :: lines_of rest
  end.

Definition lines (s : string) : list string := lines_of (split_char "010"%char s).

(** [s.split_once(": ")] *)
Fixpoint split_once_colon_space (s : string) : option (string * string) :=
  match s with
  | EmptyString => None
  | String ":" (String " " rest) => Some (EmptyString, rest)
  | String c rest =>
      match split_once_colon_space rest with
      | Some (a, b) => Some (String c a, b)
      | None => None
      end
  end.

(** [char::is_whitespace] on ASCII: space, \t, \n, \x0B, \x0C, \r. *)
Definition is_whitespace (c : ascii) : bool :=
  let n := nat_of_ascii c in
  (n =? 32)%nat || ((9 <=? n)%nat && (n <=? 13)%nat).

Fixpoint trim_start (s : string) : string :=
  match s with
  | String c rest => if is_whitespace c then trim_start rest else s
  | EmptyString => EmptyString
  end.

Fixpoint rev_str (s : string) (acc : string) : string :=
  match s with
  | EmptyString => acc
  | String c rest => rev_str rest (String c acc)
  end.

Definition trim_end (s : string) : string :=
  rev_str (trim_start (rev_str s EmptyString)) EmptyString.

(** [s.trim()] *)
Definition trim (s : string) : string := trim_end (trim_start s).

Definition is_ascii_digit (c : ascii) : bool :=
  let n := nat_of_ascii c in (48 <=? n)%nat && (n <=? 57)%nat.

(** [s.chars().all(|c| c.is_ascii_digit())]; true on the empty string. *)
Fixpoint all_digits (s : string) : bool :=
  match s with
  | EmptyString => true
  | String c rest => is_ascii_digit c && all_digits rest
  end.

(** [s.contains(c)] *)
Fixpoint contains (c : ascii) (s : string) : bool :=
  match s with
  | EmptyString => false
  | String d rest => Ascii.eqb c d || contains c rest
  end.

Fixpoint is_prefix (p s : string) : bool :=
  match p, s with
  | EmptyString, _ => true
  | String c p', String d s' => Ascii.eqb c d && is_prefix p' s'
  | _, _ => false
  end.

(** [s.contains(p)] for a string pattern. *)
Fixpoint contains_str (p s : string) : bool :=
  is_prefix p s || match s with
                   | EmptyString => false
                   | String _ rest => contains_str p rest
                   end.

(** Value of a string of decimal digits, read left to right. *)
Fixpoint digits_value_acc (s : string) (acc : Z) : Z :=
  match s with
  | EmptyString => acc
  | String c rest => digits_value_acc rest (acc * 10 + (Z.of_nat (nat_of_ascii c) - 48))
  end.

Definition digits_value (s : string) : Z := digits_value_acc s 0.

(** [s.parse::<T>()] for a signed integer type with range [lo, hi]:
    an optional sign, then one or more ASCII digits, the value in range. *)
Definition parse_int (lo hi : Z) (s : string) : option Z :=
  let '(neg, ds) :=
    match s with
    | String c rest =>
        if Ascii.eqb c "+" then (false, rest)
        else if Ascii.eqb c "-" then (true, rest)
        else (false, s)
    | EmptyString => (false, s)
    end in
  if String.eqb ds EmptyString || negb (all_digits ds) then None
  else
    let v := if neg then - digits_value ds else digits_value ds in
    if (lo <=? v) && (v <=? hi) then Some v else None.

Definition parse_i64 : string -> option Z := parse_int (- 2 ^ 63) (2 ^ 63 - 1).
Definition parse_i32 : string -> option Z := parse_int (- 2 ^ 31) (2 ^ 31 - 1).

Definition to_lower (c : ascii) : ascii :=
  let n := nat_of_ascii c in
  if (65 <=? n)%nat && (n <=? 90)%nat then ascii_of_nat (n + 32) else c.

(** [a.eq_ignore_ascii_case(b)] *)
Fixpoint eq_ignore_ascii_case (a b : string) : bool :=
  match a, b with
  | EmptyString, EmptyString => true
  | String c a', String d b' => Ascii.eqb (to_lower c) (to_lower d) && eq_ignore_ascii_case a' b'
  | _, _ => false
  end.

End Str.

(* ------------------------------------------------------------------ *)
(** ** Status parsing: [SSHClient::parse_timekpr_output] (src/services/ssh.rs) *)

Module Parser.
Import Str.

(** [serde_json::Value] as the parser produces it. *)
#[warnings="-register-all"]
Inductive jvalue :=
  | JNumber (n : Z)
  | JString (s : string)
  | JBool (b : bool)
  | JArray (items : list jvalue).

(** Results of the parser are [option]s: [None] is a panic of an
    [.unwrap()]. *)

(** The closure mapped over [value.split(';')]. *)
Definition type_item (item : string) : option jvalue :=
  if all_digits item then
    match parse_i64 item with Some n => Some (JNumber n) | None => None end
  else Some (JString item).

Fixpoint map_items (items : list string) : option (list jvalue) :=
  match items with
  | [] => Some []
  | it :: rest =>
      match type_item it, map_items rest with
      | Some j, Some js => Some (j :: js)
      | _, _ => None
      end
  end.

(** The [let json_value = if ... else ...] expression. *)
Definition type_value (value : string) : option jvalue :=
  if all_digits value then
    match parse_i64 value with Some n => Some (JNumber n) | None => None end
  else if contains ";" value then
    match map_items (split_char ";" value) with
    | Some items => Some (JArray items)
    | None => None
    end
  else if eq_ignore_ascii_case value "true" then Some (JBool true)
  else if eq_ignore_ascii_case value "false" then Some (JBool false)
  else Some (JString value).

(** Body of [for line in output.lines()]. *)
Definition parse_line (config : option (gmap string jvalue)) (line : string)
    : option (gmap string jvalue) :=
  match config with
  | None => None
  | Some m =>
      match split_once_colon_space line with
      | None => Some m
      | Some (key, value) =>
          let key := trim key in
          let value := trim value in
          if String.eqb value EmptyString then Some m      (* continue *)
          else
            match type_value value with
            | Some j => Some (<[key := j]> m)
            | None => None
            end
      end
  end.

(** [SSHClient::parse_timekpr_output] *)
Definition parse_timekpr_output (output : string) : option (gmap string jvalue) :=
  fold_left parse_line (lines output) (Some ∅).

(** The typing of values as the spec words it, with the cases the code
    distinguishes: an all-digit value is the integer it denotes; else a
    value with [;] is the list of its [;]-separated pieces, each the integer
    it denotes when all digits and otherwise the piece itself as a string;
    else [true]/[false] in any case are booleans; else the string. *)
Definition spec_item (item : string) : jvalue :=
  if all_digits item then JNumber (digits_value item) else JString item.

Definition spec_value (value : string) : jvalue :=
  if all_digits value then JNumber (digits_value value)
  else if contains ";" value then JArray (map spec_item (split_char ";" value))
  else if eq_ignore_ascii_case value "true" then JBool true
  else if eq_ignore_ascii_case value "false" then JBool false
  else JString value.

(** The [key: value] entry of a line: split at the first [": "], both sides
    trimmed; lines without [": "] or with an empty value have none. *)
Definition line_entry (line : string) : option (string * string) :=
  match split_once_colon_space line with
  | Some (k, v) =>
      let v := trim v in
      if String.eqb v EmptyString then None else Some (trim k, v)
  | None => None
  end.

(** The value the spec assigns to [key]: that of the last line whose entry
    has this key. *)
Definition spec_step (key : string) (acc : option jvalue) (line : string) : option jvalue :=
  match line_entry line with
  | Some (k, v) => if String.eqb k key then Some (spec_value v) else acc
  | None => acc
  end.

Definition spec_lookup (ls : list string) (key : string) : option jvalue :=
  fold_left (spec_step key) ls None.

(** Agent outputs used below. *)
Definition nl : string := String "010"%char EmptyString.
Definition sample_output : string :=
  "USERNAME: alice" +++ nl +++ "TIME_LEFT_DAY: 7200" +++ nl +++
  "ALLOWED_WEEKDAYS: 1;2;3" +++ nl +++ "LOCKOUT: TRUE" +++ nl.
(** What the parser makes of [sample_output]. *)
Definition sample_map : gmap string jvalue :=
  <["LOCKOUT" := JBool true]>
    (<["ALLOWED_WEEKDAYS" := JArray [JNumber 1; JNumber 2; JNumber 3]]>
      (<["TIME_LEFT_DAY" := JNumber 7200]>
        (<["USERNAME" := JString "alice"]> ∅))).
Definition signed_and_list_output : string := "A: -5" +++ nl +++ "B: true;7".
Definition empty_item_output : string := "LIMITS: 3600;;7200".
Definition overflow_output : string := "TIME_SPENT_DAY: 99999999999999999999".

End Parser.

(* ------------------------------------------------------------------ *)
(** ** Background scheduler: the [managed_user] row of one host *)

Module Sched.
Import Fmt Remote Str Parser.

(** [struct ManagedUser] (a row of [managed_user]); timestamps as [Z]. *)
Record ManagedUser := mkUser {
  id : Z;
  username : string;
  system_ip : string;
  is_valid : bool;
  date_added : Z;
  last_checked : option Z;
  last_config : option string;
  pending_time_adjustment : option Z;
  pending_time_operation : option string
}.

(** [UPDATE managed_user SET last_checked = ? WHERE id = ?] *)
Definition set_last_checked (now : Z) (u : ManagedUser) : ManagedUser :=
  mkUser (id u) (username u) (system_ip u) (is_valid u) (date_added u)
    (Some now) (last_config u) (pending_time_adjustment u) (pending_time_operation u).

(** [ManagedUser::update_validation]:
    [SET is_valid = ?, last_checked = ?, last_config = ?]. *)
Definition update_validation (now : Z) (valid : bool) (cfg : option string)
    (u : ManagedUser) : ManagedUser :=
  mkUser (id u) (username u) (system_ip u) valid (date_added u)
    (Some now) cfg (pending_time_adjustment u) (pending_time_operation u).

(** [ManagedUser::clear_pending_adjustment]:
    [SET pending_time_adjustment = NULL, pending_time_operation = NULL]. *)
Definition clear_pending_adjustment (u : ManagedUser) : ManagedUser :=
  mkUser (id u) (username u) (system_ip u) (is_valid u) (date_added u)
    (last_checked u) (last_config u) None None.

Definition settimeleft_command (user : string) (operation : string) (seconds : Z) : string :=
  "timekpra --settimeleft " +++ user +++ " " +++ operation +++ " " +++ z_to_string seconds.

(** [SSHClient::modify_time_left] of src/services/ssh.rs. *)
Definition modify_time_left (exec : remote) (user operation : string) (seconds : Z)
    : bool * string :=
  if negb (String.eqb operation "+" || String.eqb operation "-") then
    (false, "Invalid operation. Must be '+' or '-'")
  else
    match exec (settimeleft_command user operation seconds) with
    | ExecOk exit_code _ stderr =>
        if exit_code =? 0 then
          (true, "Successfully modified time for " +++ user +++ ": " +++ operation
                 +++ z_to_string seconds +++ " seconds")
        else (false, "Error modifying time: " +++ stderr)
    | ExecErr e => (false, "Connection error: " +++ e)
    end.

(** The double-quote character as a one-letter string. *)
Definition quote : string := String (ascii_of_nat 34) EmptyString.

Definition userinfo_command (user : string) : string := "timekpra --userinfo " +++ user.

(** The result of [validate_user], as [update_user] matches on it. *)
Inductive vresult :=
  | VOk (valid : bool) (message : string) (config : option (gmap string jvalue))
  | VErr (message : string).

(** [SSHClient::validate_user] of src/services/ssh.rs ([None]: the parser
    panicked). *)
Definition validate_user (exec : remote) (user : string) : option vresult :=
  match exec (userinfo_command user) with
  | ExecOk _ output _ =>
      if contains_str ("User " +++ quote +++ user +++ quote +++ " configuration is not found") output
      then Some (VOk false ("User '" +++ user +++ "' not found on system") None)
      else
        match parse_timekpr_output output with
        | Some config_dict => Some (VOk true output (Some config_dict))
        | None => None
        end
  | ExecErr e => Some (VOk false ("Connection error: " +++ e) None)
  end.

(** One attempt at a pending adjustment: the [(seconds, operation)] passed
    to [modify_time_left] and whether it reported success. *)
Definition attempt := (Z * string * bool)%type.

(** What one tick sees of the outside world for this host: the time, the
    remote side of the delta command and the result of [validate_user]. *)
Record tick := mkTick { t_now : Z; t_exec : remote; t_validation : vresult }.

Section Snapshot.
(** [serde_json::to_string] of the parsed status (its key order follows the
    [HashMap], so it is left abstract). *)
Variable to_json : gmap string jvalue -> string.

(** "Handle pending time adjustments" of [update_user]
    (src/services/scheduler.rs). *)
Definition apply_pending (exec : remote) (u : ManagedUser)
    : option attempt * ManagedUser :=
  match pending_time_adjustment u, pending_time_operation u with
  | Some adjustment, Some operation =>
      let '(ok, _) := modify_time_left exec (username u) operation adjustment in
      (Some (adjustment, operation, ok),
       if ok then clear_pending_adjustment u else u)
  | _, _ => (None, u)
  end.

(** "Update user info" of [update_user]: the status refresh. *)
Definition refresh (now : Z) (r : vresult) (u : ManagedUser) : ManagedUser :=
  match r with
  | VOk valid _ config =>
      match valid, config with
      | true, Some c => update_validation now valid (Some (to_json c)) u
      | _, _ => set_last_checked now u        (* "connection failures" *)
      end
  | VErr _ => set_last_checked now u
  end.

(** [BackgroundScheduler::update_user] on the host's row.  The weekly
    schedule and interval syncs between the two steps write other tables
    only ([user_weekly_schedule], [user_daily_time_interval]); the usage
    upsert after a successful refresh writes [user_time_usage]. *)
Definition update_user (t : tick) (u : ManagedUser) : option attempt * ManagedUser :=
  let '(a, u1) := apply_pending (t_exec t) u in
  (a, refresh (t_now t) (t_validation t) u1).

End Snapshot.

(** Successive ticks of a scheduler loop on one host's row: the attempts
    made and the final row. *)
Fixpoint run {T} (step : T -> ManagedUser -> option attempt * ManagedUser)
    (ts : list T) (u : ManagedUser) : list attempt * ManagedUser :=
  match ts with
  | [] => ([], u)
  | t :: rest =>
      let '(a, u1) := step t u in
      let '(atts, u2) := run step rest u1 in
      (match a with Some x => x :: atts | None => atts end, u2)
  end.

(** The older loop of src/scheduler.rs. *)
Module Legacy.

(** [SSHClient::modify_time_left] of src/ssh.rs; [key_found] is whether
    [find_ssh_key_path] found a key. *)
Definition modify_time_left (key_found : bool) (exec : remote) (user operation : string)
    (seconds : Z) : bool * string :=
  if negb key_found then (false, "SSH key not found. Please configure SSH keys for passwordless authentication.")
  else
    match exec (settimeleft_command user operation seconds) with
    | ExecOk code _ stderr =>
        if code =? 0 then (true, "Time adjustment applied: " +++ operation +++ z_to_string seconds)
        else (false, "Command failed: " +++ trim stderr)
    | ExecErr e => (false, "SSH connection failed: " +++ e)
    end.

(** What one tick of the older loop sees: the time, whether a key is found,
    the remote side of the delta command, and [validate_user]'s
    [(is_reachable, config.map(|c| c.to_string()))]. *)
Record tick := mkTick {
  t_now : Z; t_key_found : bool; t_exec : remote;
  t_reachable : bool; t_config : option string }.

(** [update_users_task] on the row (it selects [WHERE is_valid = 1]). *)
Definition update_users_task (now : Z) (reachable : bool) (cfg : option string)
    (u : ManagedUser) : ManagedUser :=
  if negb (is_valid u) then u
  else if reachable then
    mkUser (id u) (username u) (system_ip u) (is_valid u) (date_added u)
      (Some now) cfg (pending_time_adjustment u) (pending_time_operation u)
  else set_last_checked now u.

(** [process_pending_adjustments] on the row; the clearing [UPDATE] also
    sets [last_checked]. *)
Definition process_pending_adjustments (now : Z) (key_found : bool) (exec : remote)
    (u : ManagedUser) : option attempt * ManagedUser :=
  match pending_time_adjustment u, pending_time_operation u with
  | Some adjustment, Some operation =>
      let '(success, _) := modify_time_left key_found exec (username u) operation adjustment in
      (Some (adjustment, operation, success),
       if success then
         mkUser (id u) (username u) (system_ip u) (is_valid u) (date_added u)
           (Some now) (last_config u) None None
       else u)
  | _, _ => (None, u)
  end.

(** One tick of the loop: status refresh, then pending adjustments (the
    schedule sync writes [user_weekly_schedule] only). *)
Definition loop_tick (t : tick) (u : ManagedUser) : option attempt * ManagedUser :=
  process_pending_adjustments (t_now t) (t_key_found t) (t_exec t)
    (update_users_task (t_now t) (t_reachable t) (t_config t) u).

End Legacy.

End Sched.

(* ------------------------------------------------------------------ *)
(** ** Scheduler control: [start], [stop], [is_running]
    (src/services/scheduler.rs) *)

Module Control.

(** The shared [running] flag and the spawned [run_loop] tasks still alive. *)
Record scheduler := mkSched { running : bool; loops : nat }.

Definition new_scheduler : scheduler := mkSched false 0.

(** [BackgroundScheduler::start]: under the write lock, return if already
    running; otherwise set the flag and spawn one [run_loop]. *)
Definition start (s : scheduler) : scheduler :=
  if running s then s else mkSched true (S (loops s)).

(** [BackgroundScheduler::stop] *)
Definition stop (s : scheduler) : scheduler := mkSched false (loops s).

(** [BackgroundScheduler::is_running] *)
Definition is_running (s : scheduler) : bool := running s.

(** A live [run_loop] reaches [while *self.running.read().await]: it goes
    on with another tick while the flag is set, and ends otherwise. *)
Definition loop_check (s : scheduler) : scheduler :=
  if running s then s else mkSched (running s) (pred (loops s)).

End Control.

(* ------------------------------------------------------------------ *)
(** ** Interval update handler: [update_user_intervals] (src/handlers/api.rs) *)

Module Api.
Import Str Codec.

(** The fields of one submitted interval, as the handler reads them from
    the JSON object: [v.as_i64()] for the numbers, [v.as_bool()] for the
    flag ([None] when missing or of another JSON type). *)
Record interval_data := mkData {
  d_start_hour : option Z;
  d_start_minute : option Z;
  d_end_hour : option Z;
  d_end_minute : option Z;
  d_is_enabled : option bool
}.

(** [x as i32] on an i64: keep the low 32 bits, two's complement. *)
Definition as_i32 (x : Z) : Z := wrap32 x.

Definition unwrap_or {A} (o : option A) (d : A) : A :=
  match o with Some x => x | None => d end.

(** [let temp_interval = UserDailyTimeInterval { ... }] *)
Definition temp_interval (user_id now day : Z) (d : interval_data) : UserDailyTimeInterval :=
  mkInterval 0 user_id day
    (as_i32 (unwrap_or (d_start_hour d) 9))
    (as_i32 (unwrap_or (d_start_minute d) 0))
    (as_i32 (unwrap_or (d_end_hour d) 17))
    (as_i32 (unwrap_or (d_end_minute d) 0))
    (unwrap_or (d_is_enabled d) false)
    false None now.

(** The stored intervals of the user, by [day_of_week]
    ([INSERT OR REPLACE] on [(user_id, day_of_week)]). *)
Abbreviation store := (gmap Z UserDailyTimeInterval).

(** [UserDailyTimeInterval::upsert]: the row is written with
    [is_synced = false] and no [last_synced]. *)
Definition upsert (st : store) (day : Z) (w : UserDailyTimeInterval) : store :=
  <[day := w]> st.

(** The loop [for (day_str, interval_data) in intervals_data]: [false] when
    it returns the "Invalid time interval" response. *)
Fixpoint update_loop (user_id now : Z) (entries : list (string * interval_data))
    (st : store) : bool * store :=
  match entries with
  | [] => (true, st)
  | (day_str, d) :: rest =>
      match parse_i32 day_str with
      | None => update_loop user_id now rest st
      | Some day_of_week =>
          if negb ((1 <=? day_of_week) && (day_of_week <=? 7)) then
            update_loop user_id now rest st                      (* continue *)
          else
            let w := temp_interval user_id now day_of_week d in
            if negb (is_valid_interval w) then (false, st)
            else update_loop user_id now rest (upsert st day_of_week w)
      end
  end.

(** [update_user_intervals] for an authenticated session: [intervals] is
    [data.get("intervals").and_then(|v| v.as_object())], its entries in
    the map's iteration order.  Returns the ["success"] field and the
    stored intervals. *)
Definition update_user_intervals (user_id now : Z)
    (intervals : option (list (string * interval_data))) (st : store) : bool * store :=
  match intervals with
  | None => (false, st)
  | Some entries => update_loop user_id now entries st
  end.

End Api.


(* ------------------------------------------------------------------ *)
(** ** The older adapter: src/ssh.rs *)

Module LegacySsh.
Import Fmt Remote Str Weekly.

Definition key_missing : string :=
  "SSH key not found. Please configure SSH keys for passwordless authentication.".

(** The [Err(e)] arm of the final [Command::output()] match. *)
Definition ssh_error_msg (e : string) : string :=
  if contains_str "Permission denied" e || contains_str "publickey" e
  then "SSH key authentication failed. Please ensure SSH keys are properly configured."
  else "SSH connection failed: " +++ e.

(** [SSHClient::set_weekly_time_limits] of src/ssh.rs; [key_found] is
    whether [find_ssh_key_path] found a key.  The commands sent, in order,
    and the returned [(ok, message)]; [result.status.success()] is an exit
    code of 0. *)
Definition set_weekly_time_limits (key_found : bool) (exec : remote) (username : string)
    (schedule : gmap string float) : list string * (bool * string) :=
  if negb key_found then ([], (false, key_missing))
  else
    let '(allowed_days, time_limits) := weekly_args schedule in
    match allowed_days with
    | [] => ([], (false, "No days with time limits > 0 configured"))
    | _ =>
        let allowed_days_str := join ";" allowed_days in
        let dcmd := days_command username allowed_days in
        match exec dcmd with
        | ExecErr e => ([dcmd], (false, "SSH connection failed for setalloweddays: " +++ e))
        | ExecOk code _ stderr =>
            if negb (code =? 0) then
              ([dcmd], (false, "Failed to set allowed days: " +++ trim stderr))
            else
              let time_limits_str := join ";" time_limits in
              let full_command := limits_command username time_limits in
              match exec full_command with
              | ExecOk code2 _ stderr2 =>
                  if code2 =? 0 then
                    ([dcmd; full_command],
                     (true, "Weekly time limits applied for " +++ username +++ ": Days: "
                            +++ allowed_days_str +++ ", Limits: " +++ time_limits_str))
                  else ([dcmd; full_command], (false, "Time limits command failed: " +++ trim stderr2))
              | ExecErr e => ([dcmd; full_command], (false, ssh_error_msg e))
              end
        end
    end.

(** [s.parse::<T>()] for an unsigned integer type with maximum [hi]: an
    optional [+], then one or more ASCII digits, the value at most [hi]. *)
Definition parse_uint (hi : Z) (s : string) : option Z :=
  let ds :=
    match s with
    | String c rest => if Ascii.eqb c "+" then rest else s
    | EmptyString => s
    end in
  if String.eqb ds EmptyString || negb (all_digits ds) then None
  else if digits_value ds <=? hi then Some (digits_value ds) else None.

(** [SSHClient::parse_time_to_hour]: the text before the first [':'] as a
    [u8], accepted when at most 23. *)
Definition parse_time_to_hour (time_str : string) : option Z :=
  match split_char ":" time_str with
  | hour_str :: _ =>
      match parse_uint 255 hour_str with
      | Some hour => if hour <=? 23 then Some hour else None
      | None => None
      end
  | [] => None
  end.

(** [while current < end_hour { hours.push(current.to_string());
    current += 1; if current > 23 { break; } }].  The loop body runs at
    most 24 times (it breaks once [current] passes 23), so 24 is enough
    fuel for a start hour of at least 0. *)
Fixpoint hours_loop (fuel : nat) (current end_hour : Z) : list string :=
  match fuel with
  | O => []
  | S f =>
      if current <? end_hour then
        z_to_string current ::
          (if 23 <? current + 1 then [] else hours_loop f (current + 1) end_hour)
      else []
  end.

(** [let days = [("monday", 1), ..., ("sunday", 7)]] *)
Definition days : list (string * Z) :=
  [("monday", 1); ("tuesday", 2); ("wednesday", 3); ("thursday", 4);
   ("friday", 5); ("saturday", 6); ("sunday", 7)]%string.

(** Loop state: [success_count], [errors], and the commands sent. *)
Record lstate := mkL { l_success : Z; l_errors : list string; l_sent : list string }.

Definition l_send (st : lstate) (c : string) : lstate :=
  mkL (l_success st) (l_errors st) (l_sent st ++ [c]).
Definition l_ok (st : lstate) : lstate :=
  mkL (l_success st + 1) (l_errors st) (l_sent st).
Definition l_err (st : lstate) (m : string) : lstate :=
  mkL (l_success st) (l_errors st ++ [m]) (l_sent st).

(** Sending one [--setallowedhours] command and recording its outcome. *)
Definition l_run (exec : remote) (day_name command : string) (st : lstate) : lstate :=
  let st := l_send st command in
  match exec command with
  | ExecOk code _ stderr =>
      if code =? 0 then l_ok st else l_err st (day_name +++ ": " +++ trim stderr)
  | ExecErr e => l_err st (day_name +++ ": SSH connection failed: " +++ e)
  end.

(** Body of [for (day_name, day_num) in &days]. *)
Definition hours_day (exec : remote) (username : string)
    (intervals : gmap string (string * string)) (st : lstate) (d : string * Z) : lstate :=
  let '(day_name, day_num) := d in
  match intervals !! day_name with
  | Some (start_time, end_time) =>
      match parse_time_to_hour start_time, parse_time_to_hour end_time with
      | Some start_hour, Some end_hour =>
          match hours_loop 24 start_hour end_hour with
          | [] => st
          | hours =>
              l_run exec day_name
                (Hours.hours_command username day_num (join ";" hours)) st
          end
      | _, _ => l_err st (day_name +++ ": Invalid time format")
      end
  | None =>
      (* Set full day access (0-23 hours) when no interval specified *)
      l_run exec day_name (Hours.hours_command username day_num Hours.full_day_hours) st
  end.

(** [SSHClient::set_weekly_allowed_hours]: the commands sent and
    [(ok, message)]. *)
Definition set_weekly_allowed_hours (key_found : bool) (exec : remote) (username : string)
    (intervals : gmap string (string * string)) : list string * (bool * string) :=
  if negb key_found then ([], (false, key_missing))
  else
    let st := fold_left (hours_day exec username intervals) days (mkL 0 [] []) in
    (l_sent st,
     if 0 <? l_success st then
       (true,
        match l_errors st with
        | [] => "Successfully set allowed hours for " +++ username +++ " for all 7 days"
        | errs => "Partially successful: " +++ z_to_string (l_success st)
                  +++ " days configured, " +++ z_to_string (Z.of_nat (length errs))
                  +++ " errors: " +++ join ", " errs
        end)
     else (false, "Failed to set allowed hours: " +++ join ", " (l_errors st))).

End LegacySsh.

(* ------------------------------------------------------------------ *)
(** ** The weekly schedule row and its sync (src/database/models.rs,
    src/services/scheduler.rs) *)

Module WeeklyRow.
Import Remote Weekly.

(** [struct UserWeeklySchedule]; timestamps as [Z]. *)
Record UserWeeklySchedule := mkWeekly {
  id : Z;
  user_id : Z;
  monday_hours : float;
  tuesday_hours : float;
  wednesday_hours : float;
  thursday_hours : float;
  friday_hours : float;
  saturday_hours : float;
  sunday_hours : float;
  is_synced : bool;
  last_synced : option Z;
  last_modified : Z
}.

(** [schedule.get(day).unwrap_or(&0.0)] *)
Definition hours_or_zero (schedule : gmap string float) (day : string) : float :=
  match schedule !! day with Some h => h | None => 0%float end.

(** [UserWeeklySchedule::create_or_update]: the row the [INSERT OR REPLACE]
    leaves for [user_id] ([row_id] is the id SQLite gives it). *)
Definition create_or_update (row_id uid now : Z) (schedule : gmap string float)
    : UserWeeklySchedule :=
  mkWeekly row_id uid
    (hours_or_zero schedule "monday") (hours_or_zero schedule "tuesday")
    (hours_or_zero schedule "wednesday") (hours_or_zero schedule "thursday")
    (hours_or_zero schedule "friday") (hours_or_zero schedule "saturday")
    (hours_or_zero schedule "sunday") false None now.

(** [UserWeeklySchedule::mark_synced] *)
Definition mark_synced (now : Z) (s : UserWeeklySchedule) : UserWeeklySchedule :=
  mkWeekly (id s) (user_id s) (monday_hours s) (tuesday_hours s) (wednesday_hours s)
    (thursday_hours s) (friday_hours s) (saturday_hours s) (sunday_hours s)
    true (Some now) (last_modified s).

(** [UserWeeklySchedule::get_schedule_dict] *)
Definition get_schedule_dict (s : UserWeeklySchedule) : gmap string float :=
  <["sunday" := sunday_hours s]> (<["saturday" := saturday_hours s]>
  (<["friday" := friday_hours s]> (<["thursday" := thursday_hours s]>
  (<["wednesday" := wednesday_hours s]> (<["tuesday" := tuesday_hours s]>
  (<["monday" := monday_hours s]> ∅)))))).

(** "Handle pending weekly schedule sync" of [update_user]
    (src/services/scheduler.rs): the commands sent and the row after it. *)
Definition sync_weekly (now : Z) (exec : remote) (username : string)
    (row : option UserWeeklySchedule) : list string * option UserWeeklySchedule :=
  match row with
  | Some schedule =>
      if negb (is_synced schedule) then
        let '(sent, (ok, _)) :=
          set_weekly_time_limits exec username (get_schedule_dict schedule) in
        (sent, Some (if ok then mark_synced now schedule else schedule))
      else ([], row)
  | None => ([], None)
  end.

End WeeklyRow.

(* ------------------------------------------------------------------ *)
(** ** Time and task handlers (src/handlers/api.rs) *)

Module Handlers.
Import Remote Parser Sched Control.

(** [ManagedUser::set_pending_adjustment]:
    [SET pending_time_adjustment = ?, pending_time_operation = ?]. *)
Definition set_pending_adjustment (seconds : Z) (operation : string) (u : ManagedUser)
    : ManagedUser :=
  mkUser (id u) (username u) (system_ip u) (is_valid u) (date_added u)
    (last_checked u) (last_config u) (Some seconds) (Some operation).

(** [modify_time] for an authenticated session and an existing user row:
    the ["success"] and ["pending"] fields of the response and the row
    afterwards.  [v] is what the follow-up [validate_user] returns and
    [to_json] is [serde_json::to_string].  The [Err] arm of the
    [modify_time_left] match cannot be taken: that function always returns
    [Ok]. *)
Definition modify_time (to_json : gmap string jvalue -> string) (exec : remote)
    (v : vresult) (now : Z) (operation : string) (seconds : Z) (u : ManagedUser)
    : bool * bool * ManagedUser :=
  if negb (String.eqb operation "+" || String.eqb operation "-") then (false, false, u)
  else
    let '(ok, _) := modify_time_left exec (username u) operation seconds in
    if ok then
      let u1 := clear_pending_adjustment u in
      (true, false,
       match v with
       | VOk is_valid _ (Some config) =>
           if is_valid then update_validation now is_valid (Some (to_json config)) u1 else u1
       | _ => u1
       end)
    else (true, true, set_pending_adjustment seconds operation u).

(** [restart_tasks]: [stop] then [start]. *)
Definition restart_tasks (s : scheduler) : scheduler := start (stop s).

End Handlers.

(* ------------------------------------------------------------------ *)
(** ** Concrete inputs used by the properties below *)

Module Samples.
Import Fmt Remote Codec Weekly Hours Str Parser Sched Control Api.

(** The spec's example schedule {monday: 2.5, tuesday: 0, wednesday: 4}. *)
Definition example_schedule : gmap string float :=
  list_to_map [("monday", 2.5%float); ("tuesday", 0%float); ("wednesday", 4%float)]%string.

(** A schedule of 1.13 hours on monday (the binary64 value nearest 1.13,
    as [113.0 / 100.0] or the literal [1.13] give it). *)
Definition schedule_113 : gmap string float :=
  {[ "monday"%string := PrimFloat.div 113%float 100%float ]}.

(** A host whose agent rejects [--setalloweddays] (exit 1) and accepts
    everything else. *)
Definition rejects_days (username : string) (allowed_days : list string) : remote :=
  fun cmd =>
    if String.eqb cmd (days_command username allowed_days)
    then ExecOk 1 "" "invalid days"
    else ExecOk 0 "" "".

(** A host whose agent rejects every command (exit 1). *)
Definition rejects_all : remote := fun _ => ExecOk 1 "" "rejected".

(** A disabled window for monday. *)
Definition disabled_monday : UserDailyTimeInterval :=
  mkInterval 1 1 1 9 0 17 0 false false None 0.

(** A host row with a pending [+600] seconds adjustment. *)
Definition host_with_delta : ManagedUser :=
  mkUser 1 "alice" "10.0.0.5" true 0 None None (Some 600) (Some "+").

(** Remote sides of the delta command: the agent rejects it (exit 1) or
    applies it (exit 0); and a controller whose ssh key is missing, so no command can run. *)
Definition delta_rejected : remote := fun _ => ExecOk 1 "" "busy".
Definition delta_applied : remote := fun _ => ExecOk 0 "" "".
Definition no_ssh : remote := fun _ => ExecErr "SSH private key not found at ssh/timekpr_ui_key".

(** Ticks of src/services/scheduler.rs with the host unreachable. *)
Definition tick_fail (now : Z) : Sched.tick := Sched.mkTick now delta_rejected (VErr "down").
Definition tick_ok (now : Z) : Sched.tick := Sched.mkTick now delta_applied (VErr "down").

(** Ticks of src/scheduler.rs. *)
Definition legacy_tick_fail (now : Z) : Legacy.tick :=
  Legacy.mkTick now true delta_rejected false None.
Definition legacy_tick_ok (now : Z) : Legacy.tick :=
  Legacy.mkTick now true delta_applied false None.

(** A serialiser for the snapshot (any will do for the examples). *)
Definition some_json (_ : gmap string jvalue) : string := "{}".

(** An ssh client that cannot reach the host: the process runs, prints
    nothing on standard output and exits with 255. *)
Definition unreachable_host : remote :=
  fun _ => ExecOk 255 "" "ssh: connect to host 10.0.0.5 port 22: Connection timed out".

(** A host last seen valid, with a stored snapshot. *)
Definition checked_host : ManagedUser :=
  mkUser 1 "alice" "10.0.0.5" true 0 (Some 40)
    (Some ("{" +++ quote +++ "TIME_LEFT_DAY" +++ quote +++ ":7200}")) None None.

(** An interval submitted with [start_hour = 2^32 + 9]. *)
Definition wrapping_submission : interval_data :=
  mkData (Some (2 ^ 32 + 9)) (Some 0) (Some 17) (Some 0) (Some true).

End Samples.

(* ------------------------------------------------------------------ *)
(** ** Further concrete inputs *)

Module ExtraSamples.
Import Remote Codec Api.

(** A host whose agent accepts every command. *)
Definition accept_all : remote := fun _ => ExecOk 0 "" "".

(** A stored weekly schedule with no hours on any day, not yet synced. *)
Definition zero_row : WeeklyRow.UserWeeklySchedule :=
  WeeklyRow.mkWeekly 1 1 0%float 0%float 0%float 0%float 0%float 0%float 0%float
    false None 0.

(** A legacy interval map: monday from 09:00 to 09:45. *)
Definition short_window_day : gmap string (string * string) :=
  {[ "monday"%string := ("09:00", "09:45")%string ]}.

(** Submitted intervals: 9:00-17:00 enabled, and the same hours inverted. *)
Definition office_hours : interval_data := mkData (Some 9) (Some 0) (Some 17) (Some 0) (Some true).
Definition inverted_hours : interval_data := mkData (Some 17) (Some 0) (Some 9) (Some 0) (Some true).

End ExtraSamples.

(* ================================================================== *)
(** * Properties *)

(* ------------------------------------------------------------------ *)
(** ** Codec *)

Module CodecFacts.
Import Fmt Codec.

Lemma range_from_seq (a : Z) (n : nat) :
  range_from a n = map (fun k => a + Z.of_nat k) (seq 0 n).
Proof.
  revert a; induction n as [|n IH]; intros a; [reflexivity|].
  cbn [range_from seq map]. rewrite IH, <- seq_shift, map_map.
  f_equal; [lia|]. apply map_ext; intros k; lia.
Qed.

Lemma range_hours_between (a b : Z) :
  map z_to_string (range a b) = map render (map Whole (hours_between a b)).
Proof.
  unfold range, hours_between. rewrite range_from_seq, !map_map. reflexivity.
Qed.

(** C2: on an enabled window satisfying the invariant, the code's token
    list is the spec's: whole hours of [[start_hour, end_hour)] when both
    minutes are 0; the single bracket token when the hours agree; otherwise
    the leading token, the whole hours strictly between, and the trailing
    token only when [end_minute > 0].  On (9,30,17,15) it yields
    ["9[30-59]";"10";...;"16";"17[0-15]"]. *)
Theorem to_timekpr_format_spec (w : UserDailyTimeInterval)
    (Henabled : is_enabled w = true) (Hinv : window_invariant w) :
  to_timekpr_format w = Some (map render (spec_tokens w)) /\
  to_timekpr_format (window 9 30 17 15) =
    Some ["9[30-59]"; "10"; "11"; "12"; "13"; "14"; "15"; "16"; "17[0-15]"]%string.
Proof.
  split; [|reflexivity].
  unfold to_timekpr_format, spec_tokens. rewrite Henabled. cbn [negb].
  f_equal.
  destruct ((start_minute w =? 0) && (end_minute w =? 0)).
  - apply range_hours_between.
  - destruct (start_hour w =? end_hour w); [reflexivity|].
    rewrite !map_app, range_hours_between.
    f_equal; [destruct (start_minute w =? 0); reflexivity|].
    f_equal. destruct (0 <? end_minute w); reflexivity.
Qed.

Lemma to_timekpr_format_spec_witness :
  window_invariant (window 9 30 17 15) /\
  to_timekpr_format (window 9 30 17 15) = Some (map render (spec_tokens (window 9 30 17 15))).
Proof.
  assert (H : window_invariant (window 9 30 17 15))
    by (unfold window_invariant; simpl; lia).
  split; [exact H|].
  exact (proj1 (to_timekpr_format_spec (window 9 30 17 15) eq_refl H)).
Defined.

End CodecFacts.

(* ------------------------------------------------------------------ *)
(** ** Weekly limits *)

Module WeeklyFacts.
Import Fmt Remote Weekly Samples.

Lemma fold_day_step (schedule : gmap string float) (l : list (nat * string))
    (a b : list string) :
  fold_left (day_step schedule) l (a, b) =
    (a ++ map (fun '(i, _) => z_to_string (Z.of_nat i + 1)) (omap (select_day schedule) l),
     b ++ map (fun '(_, h) => z_to_string (hours_to_seconds h)) (omap (select_day schedule) l)).
Proof.
  revert a b; induction l as [|[i day] l IH]; intros a b; cbn [fold_left].
  - rewrite !app_nil_r. reflexivity.
  - simpl omap. unfold day_step at 2. unfold select_day at 1.
    destruct (schedule !! day) as [h|].
    + destruct (PrimFloat.ltb 0%float h).
      * rewrite IH. cbn [map]. rewrite <- !app_assoc. reflexivity.
      * rewrite IH. reflexivity.
    + rewrite IH. reflexivity.
Qed.


(** C3 (as stated, with [round]): on monday = 1.13 hours the spec's
    conversion gives the limit "4068" (round(4067.9999999999995)), the code
    sends "4067". *)
Lemma weekly_args_round_counterexample :
  weekly_args schedule_113 = (["1"], ["4067"])%string /\
  spec_weekly_args schedule_113 = (["1"], ["4068"])%string /\
  weekly_args schedule_113 <> spec_weekly_args schedule_113.
Proof.
  split; [vm_compute; reflexivity|].
  split; [vm_compute; reflexivity|].
  vm_compute. congruence.
Qed.

(** C3 (amended): for every weekly-hours map, the allowed-days list holds
    the 1-based index of each weekday, in monday..sunday order, whose hours
    are present and [> 0], and the limits list holds, at the same position,
    [(hours * 3600.0) as i64]: the f64 product truncated toward zero.
    Weekdays with zero or missing hours are in neither list.  The example
    {monday:2.5, tuesday:0, wednesday:4} gives ["1";"3"] and
    ["9000";"14400"]. *)
Theorem weekly_args_truncated_spec (schedule : gmap string float) :
  weekly_args schedule =
    (map (fun '(i, _) => z_to_string (Z.of_nat i + 1)) (spec_selected schedule),
     map (fun '(_, h) => z_to_string (hours_to_seconds h)) (spec_selected schedule)) /\
  length (fst (weekly_args schedule)) = length (snd (weekly_args schedule)) /\
  weekly_args example_schedule = (["1"; "3"], ["9000"; "14400"])%string.
Proof.
  assert (E : weekly_args schedule =
    (map (fun '(i, _) => z_to_string (Z.of_nat i + 1)) (spec_selected schedule),
     map (fun '(_, h) => z_to_string (hours_to_seconds h)) (spec_selected schedule)))
    by (unfold weekly_args, spec_selected; rewrite fold_day_step; reflexivity).
  split; [exact E|]. split; [|vm_compute; reflexivity].
  rewrite E. cbn [fst snd]. rewrite !length_map. reflexivity.
Qed.

End WeeklyFacts.

(* ------------------------------------------------------------------ *)
(** ** Pushes to the host *)

Module PushFacts.
Import Fmt Remote Codec Weekly Hours Samples.


(** C4: with the first remote call rejected by the agent (exit code 1),
    [set_weekly_time_limits] of src/services/ssh.rs still sends the second
    call and returns [ok = true]: a non-zero exit is not checked there. *)
Theorem set_weekly_time_limits_ignores_exit_code :
  let exec := rejects_days "alice" ["1"]%string in
  let sched : gmap string float := {[ "monday"%string := 2.5%float ]} in
  set_weekly_time_limits exec "alice" sched =
    ([days_command "alice" ["1"]; limits_command "alice" ["9000"]]%string,
     (true, "Successfully configured daily time limits for alice. Days: 1, Limits: ["
              +++ String (ascii_of_nat 34) EmptyString +++ "9000"
              +++ String (ascii_of_nat 34) EmptyString +++ "]")%string) /\
  call_succeeded (exec (days_command "alice" ["1"]%string)) = false.
Proof. split; vm_compute; reflexivity. Qed.


(** C5: with one disabled window whose full-day command is rejected by
    the agent (exit code 1), no day is applied, yet [set_allowed_hours]
    counts the call as a success and returns [ok = true]: on this path only
    [.is_ok()] of the transport is tested. *)
Theorem set_allowed_hours_counts_rejected_day :
  let intervals : gmap Z UserDailyTimeInterval := {[ 1 := disabled_monday ]} in
  set_allowed_hours rejects_all "alice" intervals =
    ([hours_command "alice" 1 full_day_hours],
     (true, "Successfully configured allowed hours for alice. Days configured: 1/7"%string)) /\
  forallb (fun d => negb (day_applied rejects_all "alice" intervals d)) (range 1 8) = true.
Proof. split; vm_compute; reflexivity. Qed.

End PushFacts.

(* ------------------------------------------------------------------ *)
(** ** Status parsing *)

Module ParserFacts.
Import Str Parser.

Lemma digit_not_sign (c : ascii) :
  is_ascii_digit c = true -> Ascii.eqb c "+" = false /\ Ascii.eqb c "-" = false.
Proof.
  intros H. split; destruct (Ascii.eqb_spec c "+"), (Ascii.eqb_spec c "-");
    subst; try discriminate; reflexivity.
Qed.

Lemma parse_int_digits (lo hi : Z) (s : string) (n : Z) :
  all_digits s = true -> parse_int lo hi s = Some n -> n = digits_value s.
Proof.
  intros Hd Hp. unfold parse_int in Hp.
  destruct s as [|c r].
  - discriminate.
  - pose proof (digit_not_sign c) as Hs. cbn [all_digits] in Hd.
    apply andb_prop in Hd as [Hc Hr]. destruct (Hs Hc) as [H1 H2].
    rewrite H1, H2 in Hp. cbn [all_digits String.eqb orb negb] in Hp.
    rewrite Hc, Hr in Hp. cbn [andb negb orb] in Hp.
    destruct (_ && _) in Hp; congruence.
Qed.

Lemma type_item_spec (it : string) (j : jvalue) :
  type_item it = Some j -> j = spec_item it.
Proof.
  unfold type_item, spec_item. destruct (all_digits it) eqn:Hd.
  - destruct (parse_i64 it) eqn:Hp; intros H; [|discriminate].
    injection H as <-. f_equal. exact (parse_int_digits _ _ _ _ Hd Hp).
  - congruence.
Qed.

Lemma map_items_spec (items : list string) (js : list jvalue) :
  map_items items = Some js -> js = map spec_item items.
Proof.
  revert js; induction items as [|it items IH]; intros js H; cbn [map_items] in H.
  - injection H as <-. reflexivity.
  - destruct (type_item it) eqn:Ht; [|discriminate].
    destruct (map_items items) eqn:Hr; [|discriminate].
    injection H as <-. cbn. f_equal; [exact (type_item_spec _ _ Ht)|]. apply IH. reflexivity.
Qed.

Lemma type_value_spec (v : string) (j : jvalue) :
  type_value v = Some j -> j = spec_value v.
Proof.
  unfold type_value, spec_value. destruct (all_digits v) eqn:Hd.
  - destruct (parse_i64 v) eqn:Hp; intros H; [|discriminate].
    injection H as <-. f_equal. exact (parse_int_digits _ _ _ _ Hd Hp).
  - destruct (contains ";" v).
    + destruct (map_items (split_char ";" v)) eqn:Hm; intros H; [|discriminate].
      injection H as <-. f_equal. exact (map_items_spec _ _ Hm).
    + destruct (eq_ignore_ascii_case v "true"); [congruence|].
      destruct (eq_ignore_ascii_case v "false"); congruence.
Qed.

Lemma fold_parse_line_none (ls : list string) :
  fold_left parse_line ls None = None.
Proof. induction ls as [|l ls IH]; [reflexivity|exact IH]. Qed.

Lemma parse_line_spec (m m' : gmap string jvalue) (line key : string) :
  parse_line (Some m) line = Some m' -> m' !! key = spec_step key (m !! key) line.
Proof.
  unfold parse_line, spec_step, line_entry.
  destruct (split_once_colon_space line) as [[k v]|]; [|congruence].
  destruct (String.eqb (trim v) EmptyString); [congruence|].
  destruct (type_value (trim v)) eqn:Ht; intros H; [|discriminate].
  injection H as <-. apply type_value_spec in Ht as ->.
  destruct (String.eqb_spec (trim k) key) as [<-|Hne].
  - apply lookup_insert_eq.
  - apply lookup_insert_ne. exact Hne.
Qed.

Lemma fold_parse_line_spec (ls : list string) (m0 m : gmap string jvalue) (key : string) :
  fold_left parse_line ls (Some m0) = Some m ->
  m !! key = fold_left (spec_step key) ls (m0 !! key).
Proof.
  revert m0; induction ls as [|l ls IH]; intros m0 H; cbn [fold_left] in *.
  - congruence.
  - destruct (parse_line (Some m0) l) as [m1|] eqn:E.
    + rewrite (IH m1 H). f_equal. exact (parse_line_spec _ _ _ _ E).
    + rewrite fold_parse_line_none in H. discriminate.
Qed.

(** C7 (as stated): a signed number stays a string, and [true] inside a
    [;]-list stays a string. *)
Lemma parse_timekpr_output_typing_counterexample :
  exists m, parse_timekpr_output signed_and_list_output = Some m /\
    m !! "A"%string = Some (JString "-5") /\
    m !! "B"%string = Some (JArray [JString "true"; JNumber 7]).
Proof.
  exists (<["B"%string := JArray [JString "true"; JNumber 7]]>
            (<["A"%string := JString "-5"]> ∅)).
  split; [vm_compute; reflexivity|]. split; vm_compute; reflexivity.
Qed.

(** C7 (amended): whenever the parser returns (no [unwrap] panics), the
    value stored under every key is the one given by the last output line
    carrying that key, where a line counts when it contains [": "] and its
    trimmed value is non-empty, the key is the trimmed text before the first
    [": "], and the trimmed value is typed by [spec_value]: all ASCII digits
    gives the integer; otherwise a value containing [;] gives the list of
    its pieces, each the integer when all digits and otherwise the piece as a
    string (no booleans inside lists); otherwise [true]/[false] in any case
    give booleans; otherwise the string (so [-5] stays a string).  Keys of
    no such line are absent. *)
Theorem parse_timekpr_output_spec (output : string) (m : gmap string jvalue)
    (key : string) (Hparse : parse_timekpr_output output = Some m) :
  m !! key = spec_lookup (lines output) key.
Proof.
  unfold spec_lookup. rewrite (fold_parse_line_spec _ ∅ m key Hparse).
  rewrite lookup_empty. reflexivity.
Qed.

Lemma parse_timekpr_output_spec_witness :
  parse_timekpr_output sample_output = Some sample_map /\
  sample_map !! "TIME_LEFT_DAY"%string = spec_lookup (lines sample_output) "TIME_LEFT_DAY"%string.
Proof.
  assert (H : parse_timekpr_output sample_output = Some sample_map)
    by (vm_compute; reflexivity).
  split; [exact H|].
  exact (parse_timekpr_output_spec sample_output sample_map "TIME_LEFT_DAY"%string H).
Defined.

(** C10: the [unwrap] after the all-digits test panics: on an empty
    [;]-separated item (all-digits holds vacuously, [""].parse fails) and on
    a digit string beyond [i64::MAX]. *)
Theorem parse_timekpr_output_unwrap_panics :
  all_digits "" = true /\ parse_i64 "" = None /\
  parse_timekpr_output empty_item_output = None /\
  parse_timekpr_output overflow_output = None.
Proof. repeat split; vm_compute; reflexivity. Qed.

End ParserFacts.

(* ------------------------------------------------------------------ *)
(** ** Background scheduler *)

Module SchedFacts.
Import Remote Parser Sched Samples.

Section RunPending.
Context {T : Type}.
Variable step : T -> ManagedUser -> option attempt * ManagedUser.
(** Whether the remote apply of a tick reports success, for a user name,
    operation and number of seconds. *)
Variable applied : T -> string -> string -> Z -> bool.

Hypothesis step_pending : forall t u a op,
  pending_time_adjustment u = Some a -> pending_time_operation u = Some op ->
  exists u', step t u = (Some (a, op, applied t (username u) op a), u') /\
    username u' = username u /\
    (if applied t (username u) op a
     then pending_time_adjustment u' = None /\ pending_time_operation u' = None
     else pending_time_adjustment u' = Some a /\ pending_time_operation u' = Some op).

Hypothesis step_idle : forall t u,
  pending_time_adjustment u = None -> pending_time_operation u = None ->
  exists u', step t u = (None, u') /\
    pending_time_adjustment u' = None /\ pending_time_operation u' = None.

Lemma run_idle (ts : list T) (u : ManagedUser) :
  pending_time_adjustment u = None -> pending_time_operation u = None ->
  fst (run step ts u) = [] /\
  pending_time_adjustment (snd (run step ts u)) = None /\
  pending_time_operation (snd (run step ts u)) = None.
Proof.
  revert u; induction ts as [|t ts IH]; intros u Ha Ho; [auto|].
  destruct (step_idle t u Ha Ho) as (u' & E & Ha' & Ho').
  cbn [run]. rewrite E. destruct (IH u' Ha' Ho') as (H1 & H2 & H3).
  destruct (run step ts u') as [atts u2]. cbn in *. auto.
Qed.

Lemma run_pending_once (fails : list T) (t1 : T) (rest : list T)
    (u : ManagedUser) (a : Z) (op : string) :
  pending_time_adjustment u = Some a -> pending_time_operation u = Some op ->
  Forall (fun t => applied t (username u) op a = false) fails ->
  applied t1 (username u) op a = true ->
  fst (run step (fails ++ t1 :: rest) u) =
    map (fun _ => (a, op, false)) fails ++ [(a, op, true)] /\
  pending_time_adjustment (snd (run step (fails ++ t1 :: rest) u)) = None /\
  pending_time_operation (snd (run step (fails ++ t1 :: rest) u)) = None.
Proof.
  revert u; induction fails as [|t fails IH]; intros u Ha Ho Hf Hok; cbn [app run].
  - destruct (step_pending t1 u a op Ha Ho) as (u' & E & _ & Hp).
    rewrite Hok in E, Hp. destruct Hp as [Ha' Ho']. rewrite E.
    destruct (run_idle rest u' Ha' Ho') as (H1 & H2 & H3).
    destruct (run step rest u') as [atts u2]. cbn in *. subst. auto.
  - inversion Hf as [|? ? Ht Hfs]; subst.
    destruct (step_pending t u a op Ha Ho) as (u' & E & Hn & Hp).
    rewrite Ht in E, Hp. destruct Hp as [Ha' Ho']. rewrite E.
    rewrite <- Hn in Hfs, Hok.
    destruct (IH u' Ha' Ho' Hfs Hok) as (H1 & H2 & H3).
    destruct (run step (fails ++ t1 :: rest) u') as [atts u2]. cbn in *.
    rewrite H1. auto.
Qed.

End RunPending.

(** The status refresh of src/services/scheduler.rs leaves the name and the
    pending adjustment alone. *)
Lemma refresh_keeps_pending (to_json : gmap string jvalue -> string) (now : Z)
    (r : vresult) (u : ManagedUser) :
  username (refresh to_json now r u) = username u /\
  pending_time_adjustment (refresh to_json now r u) = pending_time_adjustment u /\
  pending_time_operation (refresh to_json now r u) = pending_time_operation u.
Proof. destruct r as [[] ? [c|]|]; cbn; auto. Qed.

Lemma update_user_pending (to_json : gmap string jvalue -> string) (t : Sched.tick)
    (u : ManagedUser) (a : Z) (op : string) :
  pending_time_adjustment u = Some a -> pending_time_operation u = Some op ->
  exists u', update_user to_json t u =
      (Some (a, op, fst (modify_time_left (t_exec t) (username u) op a)), u') /\
    username u' = username u /\
    (if fst (modify_time_left (t_exec t) (username u) op a)
     then pending_time_adjustment u' = None /\ pending_time_operation u' = None
     else pending_time_adjustment u' = Some a /\ pending_time_operation u' = Some op).
Proof.
  intros Ha Ho. unfold update_user, apply_pending. rewrite Ha, Ho.
  destruct (modify_time_left (t_exec t) (username u) op a) as [ok msg].
  eexists. split; [reflexivity|]. cbn [fst].
  destruct (refresh_keeps_pending to_json (t_now t) (t_validation t)
              (if ok then clear_pending_adjustment u else u)) as (H1 & H2 & H3).
  rewrite H1, H2, H3. destruct ok; cbn; auto.
Qed.

Lemma update_user_idle (to_json : gmap string jvalue -> string) (t : Sched.tick)
    (u : ManagedUser) :
  pending_time_adjustment u = None -> pending_time_operation u = None ->
  exists u', update_user to_json t u = (None, u') /\
    pending_time_adjustment u' = None /\ pending_time_operation u' = None.
Proof.
  intros Ha Ho. unfold update_user, apply_pending. rewrite Ha.
  eexists. split; [reflexivity|].
  destruct (refresh_keeps_pending to_json (t_now t) (t_validation t) u) as (_ & H2 & H3).
  rewrite H2, H3. auto.
Qed.

Lemma legacy_refresh_keeps (now : Z) (reachable : bool) (cfg : option string)
    (u : ManagedUser) :
  username (Legacy.update_users_task now reachable cfg u) = username u /\
  is_valid (Legacy.update_users_task now reachable cfg u) = is_valid u /\
  pending_time_adjustment (Legacy.update_users_task now reachable cfg u) = pending_time_adjustment u /\
  pending_time_operation (Legacy.update_users_task now reachable cfg u) = pending_time_operation u.
Proof.
  unfold Legacy.update_users_task. destruct (is_valid u) eqn:Hv; cbn; [|auto].
  destruct reachable; cbn; rewrite ?Hv; auto.
Qed.

Lemma legacy_tick_pending (t : Legacy.tick) (u : ManagedUser) (a : Z) (op : string) :
  pending_time_adjustment u = Some a -> pending_time_operation u = Some op ->
  exists u', Legacy.loop_tick t u =
      (Some (a, op, fst (Legacy.modify_time_left (Legacy.t_key_found t) (Legacy.t_exec t)
                           (username u) op a)), u') /\
    username u' = username u /\
    (if fst (Legacy.modify_time_left (Legacy.t_key_found t) (Legacy.t_exec t) (username u) op a)
     then pending_time_adjustment u' = None /\ pending_time_operation u' = None
     else pending_time_adjustment u' = Some a /\ pending_time_operation u' = Some op).
Proof.
  intros Ha Ho. unfold Legacy.loop_tick, Legacy.process_pending_adjustments.
  destruct (legacy_refresh_keeps (Legacy.t_now t) (Legacy.t_reachable t) (Legacy.t_config t) u)
    as (Hn & _ & Ha' & Ho').
  rewrite Ha', Ho', Ha, Ho, Hn.
  destruct (Legacy.modify_time_left (Legacy.t_key_found t) (Legacy.t_exec t) (username u) op a)
    as [ok msg].
  eexists. split; [reflexivity|]. cbn [fst].
  destruct ok; cbn; rewrite ?Hn, ?Ha', ?Ho', ?Ha, ?Ho; auto.
Qed.

Lemma legacy_tick_idle (t : Legacy.tick) (u : ManagedUser) :
  pending_time_adjustment u = None -> pending_time_operation u = None ->
  exists u', Legacy.loop_tick t u = (None, u') /\
    pending_time_adjustment u' = None /\ pending_time_operation u' = None.
Proof.
  intros Ha Ho. unfold Legacy.loop_tick, Legacy.process_pending_adjustments.
  destruct (legacy_refresh_keeps (Legacy.t_now t) (Legacy.t_reachable t) (Legacy.t_config t) u)
    as (_ & _ & Ha' & Ho').
  rewrite Ha'. rewrite Ha. eexists. split; [reflexivity|]. rewrite Ha', Ho'. auto.
Qed.

(** C1: take a host row whose pending adjustment is [(a, op)].  Suppose
    the remote apply fails on each tick of [fails] and succeeds on tick [t1].
    Then every attempt, the first to the [N+1]-th, passes the same seconds
    [a] and direction [op].  The row is cleared on [t1] and by no earlier
    tick, and later ticks make no attempt.  This holds for [update_user]
    of src/services/scheduler.rs, for any snapshot serialiser, and for the
    tick of src/scheduler.rs. *)
Theorem pending_delta_cleared_once :
  (forall (to_json : gmap string jvalue -> string) (fails : list Sched.tick)
          (t1 : Sched.tick) (rest : list Sched.tick) (u : ManagedUser) (a : Z) (op : string),
     pending_time_adjustment u = Some a -> pending_time_operation u = Some op ->
     Forall (fun t => fst (modify_time_left (t_exec t) (username u) op a) = false) fails ->
     fst (modify_time_left (t_exec t1) (username u) op a) = true ->
     fst (run (update_user to_json) (fails ++ t1 :: rest) u) =
       map (fun _ => (a, op, false)) fails ++ [(a, op, true)] /\
     pending_time_adjustment (snd (run (update_user to_json) (fails ++ t1 :: rest) u)) = None /\
     pending_time_operation (snd (run (update_user to_json) (fails ++ t1 :: rest) u)) = None) /\
  (forall (fails : list Legacy.tick) (t1 : Legacy.tick) (rest : list Legacy.tick)
          (u : ManagedUser) (a : Z) (op : string),
     pending_time_adjustment u = Some a -> pending_time_operation u = Some op ->
     Forall (fun t => fst (Legacy.modify_time_left (Legacy.t_key_found t) (Legacy.t_exec t)
                             (username u) op a) = false) fails ->
     fst (Legacy.modify_time_left (Legacy.t_key_found t1) (Legacy.t_exec t1) (username u) op a) = true ->
     fst (run Legacy.loop_tick (fails ++ t1 :: rest) u) =
       map (fun _ => (a, op, false)) fails ++ [(a, op, true)] /\
     pending_time_adjustment (snd (run Legacy.loop_tick (fails ++ t1 :: rest) u)) = None /\
     pending_time_operation (snd (run Legacy.loop_tick (fails ++ t1 :: rest) u)) = None).
Proof.
  split.
  - intros to_json. apply (run_pending_once (update_user to_json)
      (fun t user op a => fst (modify_time_left (t_exec t) user op a))).
    + apply update_user_pending.
    + apply update_user_idle.
  - apply (run_pending_once Legacy.loop_tick
      (fun t user op a => fst (Legacy.modify_time_left (Legacy.t_key_found t) (Legacy.t_exec t) user op a))).
    + apply legacy_tick_pending.
    + apply legacy_tick_idle.
Qed.

Lemma pending_delta_cleared_once_witness :
  fst (run (update_user some_json) ([tick_fail 10; tick_fail 20] ++ tick_ok 30 :: [tick_ok 40])
         host_with_delta) =
    [(600, "+", false); (600, "+", false); (600, "+", true)]%string /\
  pending_time_adjustment
    (snd (run (update_user some_json) ([tick_fail 10; tick_fail 20] ++ tick_ok 30 :: [tick_ok 40])
            host_with_delta)) = None /\
  pending_time_operation
    (snd (run (update_user some_json) ([tick_fail 10; tick_fail 20] ++ tick_ok 30 :: [tick_ok 40])
            host_with_delta)) = None.
Proof.
  apply (proj1 pending_delta_cleared_once some_json [tick_fail 10; tick_fail 20] (tick_ok 30)
           [tick_ok 40] host_with_delta 600 "+"%string).
  - reflexivity.
  - reflexivity.
  - repeat constructor.
  - vm_compute. reflexivity.
Defined.

(** C6: the services [execute_ssh_command] reports a host that ssh cannot
    reach (or an authentication failure) as a run with exit code 255 and
    empty output, not as an error.  [validate_user] ignores the exit code
    and parses the empty output, so the refresh of
    src/services/scheduler.rs sets [is_valid] to true and replaces the
    stored snapshot by the serialised empty status: for a host with a
    snapshot, more than [last_checked] changes. *)
Theorem refresh_unreachable_host_overwrites_snapshot :
  (forall (to_json : gmap string jvalue -> string) (u : ManagedUser) (now : Z),
     validate_user unreachable_host (username u) = Some (VOk true "" (Some ∅)) /\
     refresh to_json now (VOk true "" (Some ∅)) u =
       update_validation now true (Some (to_json ∅)) u) /\
  refresh some_json 50 (VOk true "" (Some ∅)) checked_host =
    mkUser 1 "alice" "10.0.0.5" true 0 (Some 50) (Some "{}") None None /\
  last_config checked_host <> Some "{}"%string.
Proof.
  split; [|split].
  - intros to_json u now. split; [|reflexivity].
    unfold validate_user, unreachable_host.
    cbn [Str.contains_str Str.is_prefix String.append orb]. reflexivity.
  - reflexivity.
  - cbn. discriminate.
Qed.


End SchedFacts.

(* ------------------------------------------------------------------ *)
(** ** Scheduler control *)

Module ControlFacts.
Import Control.

(** C8: [start] on a running scheduler changes nothing.  Two [start]s in a
    row from a stopped scheduler spawn exactly one loop, so from a fresh
    scheduler exactly one loop runs.  After [stop] the flag is false,
    [is_running] returns false, and a loop that reaches its next check
    ends. *)
Theorem start_stop_spec :
  (forall s : scheduler, running s = true -> start s = s) /\
  (forall s : scheduler, running s = false -> start (start s) = mkSched true (S (loops s))) /\
  start (start new_scheduler) = mkSched true 1 /\
  (forall s : scheduler,
     running (stop s) = false /\ is_running (stop s) = false /\
     loop_check (stop s) = mkSched false (pred (loops s))).
Proof.
  split; [|split; [|split]].
  - intros [r n] H. cbn in H. subst. reflexivity.
  - intros [r n] H. cbn in H. subst. reflexivity.
  - reflexivity.
  - intros [r n]. repeat split.
Qed.

Lemma start_stop_spec_witness :
  start (mkSched true 1) = mkSched true 1 /\ start (start (mkSched false 0)) = mkSched true 1.
Proof.
  split.
  - exact (proj1 start_stop_spec (mkSched true 1) eq_refl).
  - exact (proj1 (proj2 start_stop_spec) (mkSched false 0) eq_refl).
Defined.

End ControlFacts.

(* ------------------------------------------------------------------ *)
(** ** Interval update handler *)

Module ApiFacts.
Import Codec Api Samples.

(** C9: a window submitted with [start_hour = 2^32 + 9] (minute offset far
    beyond 1440) is cut to 9 by [as i32], passes [is_valid_interval], is
    stored as 9:00-17:00, and the handler reports success. *)
Theorem update_user_intervals_wraps_out_of_range :
  (2 ^ 32 + 9) * 60 + 0 >= 1440 /\
  fst (update_user_intervals 1 0 (Some [("1"%string, wrapping_submission)]) ∅) = true /\
  option_map start_hour
    (snd (update_user_intervals 1 0 (Some [("1"%string, wrapping_submission)]) ∅) !! 1) = Some 9.
Proof. split; [lia|]. split; vm_compute; reflexivity. Qed.

End ApiFacts.

(* ================================================================== *)
(** * Further properties of the code *)

(* ------------------------------------------------------------------ *)
(** ** Window validation and encoding (src/database/models.rs) *)

Module CodecExtra.
Import Fmt Codec.

Lemma wrap32_small (z : Z) : - 2 ^ 31 <= z < 2 ^ 31 -> wrap32 z = z.
Proof. intros H. unfold wrap32. rewrite Z.mod_small; lia. Qed.

Lemma is_valid_interval_unwrapped (w : UserDailyTimeInterval) :
  - 2 ^ 24 <= start_hour w <= 2 ^ 24 -> - 2 ^ 24 <= start_minute w <= 2 ^ 24 ->
  - 2 ^ 24 <= end_hour w <= 2 ^ 24 -> - 2 ^ 24 <= end_minute w <= 2 ^ 24 ->
  (is_valid_interval w = true <->
   0 <= start_hour w * 60 + start_minute w < end_hour w * 60 + end_minute w /\
   end_hour w * 60 + end_minute w < 1440).
Proof.
  intros Hsh Hsm Heh Hem. unfold is_valid_interval.
  rewrite (wrap32_small (start_hour w * 60)) by lia.
  rewrite (wrap32_small (start_hour w * 60 + start_minute w)) by lia.
  rewrite (wrap32_small (end_hour w * 60)) by lia.
  rewrite (wrap32_small (end_hour w * 60 + end_minute w)) by lia.
  rewrite !andb_true_iff, !Z.ltb_lt, !Z.leb_le. lia.
Qed.

Lemma range_cons (a b : Z) : a < b -> range a b = a :: range (a + 1) b.
Proof.
  intros H. unfold range.
  replace (Z.to_nat (b - a)) with (S (Z.to_nat (b - (a + 1)))) by lia.
  reflexivity.
Qed.

(** X1: when no field is far out of range (so the i32 arithmetic does not
    wrap), [is_valid_interval] accepts a window exactly when its start and
    end, as minutes since midnight, satisfy [0 <= start < end < 1440].  The
    minute fields themselves are not bounded by 59: (9,75)-(17,0) is
    accepted. *)
Theorem is_valid_interval_iff (w : UserDailyTimeInterval) :
  - 2 ^ 24 <= start_hour w <= 2 ^ 24 -> - 2 ^ 24 <= start_minute w <= 2 ^ 24 ->
  - 2 ^ 24 <= end_hour w <= 2 ^ 24 -> - 2 ^ 24 <= end_minute w <= 2 ^ 24 ->
  (is_valid_interval w = true <->
   0 <= start_hour w * 60 + start_minute w < end_hour w * 60 + end_minute w /\
   end_hour w * 60 + end_minute w < 1440).
Proof. apply is_valid_interval_unwrapped. Qed.

Lemma is_valid_interval_iff_witness :
  is_valid_interval (window 9 75 17 0) = true /\
  0 <= 9 * 60 + 75 < 17 * 60 + 0 /\ 17 * 60 + 0 < 1440.
Proof.
  split; [reflexivity|].
  apply (is_valid_interval_iff (window 9 75 17 0)); cbn; [lia|lia|lia|lia|reflexivity].
Defined.

(** X2: an enabled window that passes [is_valid_interval] (fields not far
    out of range) is encoded as a non-empty list of hour tokens, so the
    agent never receives an empty hour list for it. *)
Theorem to_timekpr_format_nonempty (w : UserDailyTimeInterval) :
  is_enabled w = true -> is_valid_interval w = true ->
  - 2 ^ 24 <= start_hour w <= 2 ^ 24 -> - 2 ^ 24 <= start_minute w <= 2 ^ 24 ->
  - 2 ^ 24 <= end_hour w <= 2 ^ 24 -> - 2 ^ 24 <= end_minute w <= 2 ^ 24 ->
  exists hs, to_timekpr_format w = Some hs /\ hs <> [].
Proof.
  intros Hen Hv Hsh Hsm Heh Hem.
  apply is_valid_interval_unwrapped in Hv; [|assumption..].
  unfold to_timekpr_format. rewrite Hen. cbn [negb].
  eexists; split; [reflexivity|].
  destruct (Z.eqb_spec (start_minute w) 0) as [Hs0|Hs0];
    destruct (Z.eqb_spec (end_minute w) 0) as [He0|He0]; cbn [andb].
  - rewrite range_cons by lia. cbn [map]. discriminate.
  - destruct (start_hour w =? end_hour w); [discriminate|].
    destruct (start_minute w =? 0); cbn [app]; discriminate.
  - destruct (start_hour w =? end_hour w); [discriminate|].
    destruct (start_minute w =? 0); cbn [app]; discriminate.
  - destruct (start_hour w =? end_hour w); [discriminate|].
    destruct (start_minute w =? 0); cbn [app]; discriminate.
Qed.

Lemma to_timekpr_format_nonempty_witness :
  exists hs, to_timekpr_format (window 9 30 17 15) = Some hs /\ hs <> [].
Proof.
  apply (to_timekpr_format_nonempty (window 9 30 17 15)); cbn; try reflexivity; lia.
Defined.

End CodecExtra.

(* ------------------------------------------------------------------ *)
(** ** Time adjustments, status refresh and restart
    (src/services/ssh.rs, src/services/scheduler.rs, src/handlers/api.rs) *)

Module TimeFacts.
Import Fmt Remote Str Parser Sched Control Handlers Samples.

Lemma modify_time_left_fst (exec : remote) (user op : string) (s : Z) :
  fst (modify_time_left exec user op s) =
    (String.eqb op "+" || String.eqb op "-") &&
    call_succeeded (exec (settimeleft_command user op s)).
Proof.
  unfold modify_time_left.
  destruct (String.eqb op "+" || String.eqb op "-"); [|reflexivity]. cbn [negb andb].
  destruct (exec (settimeleft_command user op s)) as [e|c o er]; [reflexivity|].
  cbn [call_succeeded]. destruct (c =? 0); reflexivity.
Qed.

(** X3: [modify_time_left] reports success exactly when the operation is
    ["+"] or ["-"] and the [--settimeleft] command ran with exit code 0.  For
    any other operation its result does not depend on the remote side: no
    command is sent. *)
Theorem modify_time_left_ok_iff (exec : remote) (user op : string) (s : Z) :
  (fst (modify_time_left exec user op s) = true <->
   (op = "+" \/ op = "-")%string /\
   call_succeeded (exec (settimeleft_command user op s)) = true) /\
  (op <> "+"%string -> op <> "-"%string ->
   forall exec' : remote, modify_time_left exec' user op s = modify_time_left exec user op s).
Proof.
  split.
  - rewrite modify_time_left_fst, andb_true_iff, orb_true_iff, !String.eqb_eq. tauto.
  - intros H1 H2 exec'. unfold modify_time_left.
    apply String.eqb_neq in H1, H2. rewrite H1, H2. reflexivity.
Qed.

Lemma modify_time_left_ok_iff_witness :
  fst (modify_time_left ExtraSamples.accept_all "alice" "+" 60) = true /\
  modify_time_left ExtraSamples.accept_all "alice" "*" 60 =
    modify_time_left rejects_all "alice" "*" 60.
Proof.
  split.
  - apply (proj1 (modify_time_left_ok_iff ExtraSamples.accept_all "alice" "+" 60)).
    split; [left; reflexivity|reflexivity].
  - apply (proj2 (modify_time_left_ok_iff rejects_all "alice" "*" 60)); discriminate.
Defined.

(** X4: [validate_user] ignores the exit code: a [--userinfo] call that ran
    with empty output, whatever its exit code (e.g. 255 when ssh cannot
    reach the host), yields [is_valid = true] with an empty status, and the
    scheduler's refresh then writes [is_valid = true] and the serialised
    empty status into [last_config]. *)
Theorem refresh_after_failed_call_marks_valid (to_json : gmap string jvalue -> string)
    (now code : Z) (err : string) (u : ManagedUser) :
  exists r, validate_user (fun _ => ExecOk code "" err) (username u) = Some r /\
    refresh to_json now r u = update_validation now true (Some (to_json ∅)) u.
Proof.
  eexists. split.
  - unfold validate_user. cbn [contains_str is_prefix String.append orb].
    reflexivity.
  - reflexivity.
Qed.

(** X5: when [modify_time] (src/handlers/api.rs) cannot apply a valid
    adjustment, it answers success with ["pending": true] and queues exactly
    this [(seconds, operation)], replacing any adjustment queued before; the
    next scheduler tick attempts exactly that pair. *)
Theorem modify_time_failure_queues_latest (to_json to_json' : gmap string jvalue -> string)
    (exec : remote) (v : vresult) (now : Z) (op : string) (seconds : Z)
    (u : ManagedUser) (t : Sched.tick) :
  (op = "+" \/ op = "-")%string ->
  call_succeeded (exec (settimeleft_command (username u) op seconds)) = false ->
  let '(success, pending, u1) := modify_time to_json exec v now op seconds u in
  success = true /\ pending = true /\
  pending_time_adjustment u1 = Some seconds /\ pending_time_operation u1 = Some op /\
  fst (update_user to_json' t u1) =
    Some (seconds, op, call_succeeded (t_exec t (settimeleft_command (username u) op seconds))).
Proof.
  intros Hop Hfail.
  assert (Hv : (String.eqb op "+" || String.eqb op "-") = true)
    by (apply orb_true_iff; rewrite !String.eqb_eq; exact Hop).
  unfold modify_time. rewrite Hv. cbn [negb].
  pose proof (modify_time_left_fst exec (username u) op seconds) as Hf.
  rewrite Hv, Hfail in Hf.
  destruct (modify_time_left exec (username u) op seconds) as [ok msg].
  cbn [fst] in Hf. subst ok.
  repeat split.
  unfold update_user, apply_pending, set_pending_adjustment. cbn.
  pose proof (modify_time_left_fst (t_exec t) (username u) op seconds) as Hg.
  rewrite Hv in Hg.
  destruct (modify_time_left (t_exec t) (username u) op seconds) as [ok2 m2].
  cbn [fst] in Hg. subst ok2. reflexivity.
Qed.

Lemma modify_time_failure_queues_latest_witness :
  let '(success, pending, u1) :=
    modify_time some_json delta_rejected (VErr "down") 0 "+" 600 host_with_delta in
  success = true /\ pending = true /\
  pending_time_adjustment u1 = Some 600 /\ pending_time_operation u1 = Some "+"%string /\
  fst (update_user some_json (tick_ok 5) u1) =
    Some (600, "+"%string,
          call_succeeded (t_exec (tick_ok 5)
                            (settimeleft_command (username host_with_delta) "+" 600))).
Proof.
  apply (modify_time_failure_queues_latest some_json some_json delta_rejected (VErr "down")
           0 "+" 600 host_with_delta (tick_ok 5));
    [left; reflexivity|vm_compute; reflexivity].
Defined.

(** X6: [restart_tasks] ([stop] then [start], with no loop check between
    them) spawns a new loop while the loops already running see the flag
    set again and never end: after any number of loop checks there are
    [loops + 1] live loops. *)
Theorem restart_tasks_keeps_old_loops (s : scheduler) (n : nat) :
  Nat.iter n loop_check (restart_tasks s) = mkSched true (S (loops s)).
Proof.
  induction n as [|n IH]; [reflexivity|].
  rewrite Nat.iter_succ, IH. reflexivity.
Qed.

End TimeFacts.

(* ------------------------------------------------------------------ *)
(** ** Allowed hours (src/services/ssh.rs) *)

Module HoursExtra.
Import Fmt Remote Codec Hours Samples.

Lemma hours_day_counts (exec : remote) (user : string)
    (m : gmap Z UserDailyTimeInterval) (st : hstate) (d : Z) :
  (forall cmd, exists o e, exec cmd = ExecOk 0 o e) ->
  success_count (hours_day exec user m st d) =
    success_count st + (if m !! d then 1 else 0) /\
  length (sent (hours_day exec user m st d)) =
    (length (sent st) + (if m !! d then 1 else 0))%nat.
Proof.
  intros Hacc. unfold hours_day.
  destruct (m !! d) as [w|]; [|cbn; split; lia].
  destruct (is_enabled w && is_valid_interval w) eqn:Hv.
  - destruct (to_timekpr_format w) as [hs|] eqn:Hf.
    + match goal with |- context [exec ?c] => destruct (Hacc c) as (o & e & ->) end.
      cbn. rewrite length_app. cbn. split; lia.
    + exfalso. apply andb_true_iff in Hv. unfold to_timekpr_format in Hf.
      rewrite (proj1 Hv) in Hf. discriminate.
  - match goal with |- context [exec ?c] => destruct (Hacc c) as (o & e & ->) end.
    cbn. rewrite length_app. cbn. split; lia.
Qed.

Lemma fold_hours_day_counts (exec : remote) (user : string)
    (m : gmap Z UserDailyTimeInterval) (ds : list Z) (st : hstate) :
  (forall cmd, exists o e, exec cmd = ExecOk 0 o e) ->
  success_count (fold_left (hours_day exec user m) ds st) =
    success_count st +
    Z.of_nat (length (List.filter (fun d => if m !! d then true else false) ds)) /\
  length (sent (fold_left (hours_day exec user m) ds st)) =
    (length (sent st) + length (List.filter (fun d => if m !! d then true else false) ds))%nat.
Proof.
  intros Hacc. revert st; induction ds as [|d ds IH]; intros st;
    cbn [fold_left List.filter].
  - cbn [length]. split; lia.
  - destruct (IH (hours_day exec user m st d)) as [H1 H2].
    destruct (hours_day_counts exec user m st d Hacc) as [H3 H4].
    rewrite H1, H2, H3, H4.
    destruct (m !! d); cbn [length]; split; lia.
Qed.

(** X7: when the agent accepts every command, [set_allowed_hours] sends
    exactly one command for each of the days 1..7 present in the map (none
    for the others) and returns [ok = true] exactly when at least one such
    day is present. *)
Theorem set_allowed_hours_all_accepted (exec : remote) (user : string)
    (m : gmap Z UserDailyTimeInterval) :
  (forall cmd, exists o e, exec cmd = ExecOk 0 o e) ->
  let n := length (List.filter (fun d => if m !! d then true else false) (range 1 8)) in
  length (fst (set_allowed_hours exec user m)) = n /\
  fst (snd (set_allowed_hours exec user m)) = (0 <? Z.of_nat n).
Proof.
  intros Hacc. cbv zeta. unfold set_allowed_hours. cbn [fst snd].
  destruct (fold_hours_day_counts exec user m (range 1 8) (mkH 0 [] []) Hacc) as [H1 H2].
  cbn [success_count sent length] in H1, H2. split; [exact H2|].
  rewrite H1, Z.add_0_l.
  destruct (0 <? _); reflexivity.
Qed.

Lemma set_allowed_hours_all_accepted_witness :
  let m : gmap Z UserDailyTimeInterval := {[ 1 := disabled_monday ]} in
  length (fst (set_allowed_hours ExtraSamples.accept_all "alice" m)) =
    length (List.filter (fun d => if m !! d then true else false) (range 1 8)) /\
  fst (snd (set_allowed_hours ExtraSamples.accept_all "alice" m)) =
    (0 <? Z.of_nat (length (List.filter (fun d => if m !! d then true else false) (range 1 8)))).
Proof.
  apply (set_allowed_hours_all_accepted ExtraSamples.accept_all "alice" {[ 1 := disabled_monday ]}).
  intros cmd. exists EmptyString, EmptyString. reflexivity.
Defined.

Lemma hours_day_insert_ne (exec : remote) (user : string)
    (m : gmap Z UserDailyTimeInterval) (k : Z) (w : UserDailyTimeInterval)
    (st : hstate) (d : Z) :
  k <> d -> hours_day exec user (<[k := w]> m) st d = hours_day exec user m st d.
Proof. intros H. unfold hours_day. rewrite lookup_insert_ne by exact H. reflexivity. Qed.

(** X8: entries of the interval map under a key outside 1..7 have no
    effect on [set_allowed_hours]: the same commands are sent and the same
    result is returned as without them. *)
Theorem set_allowed_hours_ignores_other_days (exec : remote) (user : string)
    (m : gmap Z UserDailyTimeInterval) (k : Z) (w : UserDailyTimeInterval) :
  ~ (1 <= k <= 7) ->
  set_allowed_hours exec user (<[k := w]> m) = set_allowed_hours exec user m.
Proof.
  intros Hk. unfold set_allowed_hours.
  replace (range 1 8) with [1; 2; 3; 4; 5; 6; 7] by reflexivity.
  cbn [fold_left].
  rewrite !hours_day_insert_ne by lia. reflexivity.
Qed.

Lemma set_allowed_hours_ignores_other_days_witness :
  set_allowed_hours rejects_all "alice" (<[9 := disabled_monday]> ∅) =
    set_allowed_hours rejects_all "alice" ∅.
Proof. apply set_allowed_hours_ignores_other_days. lia. Defined.

End HoursExtra.

(* ------------------------------------------------------------------ *)
(** ** The older adapter (src/ssh.rs) *)

Module LegacyExtra.
Import Fmt Remote Str Codec Weekly LegacySsh.

(** X9: [set_weekly_time_limits] of src/ssh.rs sends nothing without a key
    or without a day with hours > 0.  Otherwise it sends the
    [--setalloweddays] command, and the [--settimelimits] command only when
    the first one exited with 0.  It reports [ok = true] exactly when a key
    was found, some day has hours > 0, and both commands exited with 0. *)
Theorem legacy_set_weekly_time_limits_checks_exit_codes (key_found : bool) (exec : remote)
    (user : string) (sched : gmap string float) :
  let ad := fst (weekly_args sched) in
  let dcmd := days_command user ad in
  let lcmd := limits_command user (snd (weekly_args sched)) in
  fst (LegacySsh.set_weekly_time_limits key_found exec user sched) =
    (if key_found then
       match ad with
       | [] => []
       | _ => dcmd :: (if call_succeeded (exec dcmd) then [lcmd] else [])
       end
     else []) /\
  (fst (snd (LegacySsh.set_weekly_time_limits key_found exec user sched)) = true <->
   key_found = true /\ ad <> [] /\ call_succeeded (exec dcmd) = true /\
   call_succeeded (exec lcmd) = true).
Proof.
  intros ad dcmd lcmd. subst ad dcmd lcmd.
  unfold LegacySsh.set_weekly_time_limits.
  destruct key_found; cbn [negb];
    [|split; [reflexivity|split; [discriminate|intros (H & _); discriminate]]].
  destruct (weekly_args sched) as [ad tl]. cbn [fst snd].
  destruct ad as [|a0 ad].
  { split; [reflexivity|split; [discriminate|intros (_ & H & _); congruence]]. }
  destruct (exec (days_command user (a0 :: ad))) as [e|c o er]; cbn [call_succeeded].
  { split; [reflexivity|split; [discriminate|intros (_ & _ & H & _); discriminate]]. }
  destruct (c =? 0); cbn [negb].
  2: { split; [reflexivity|split; [discriminate|intros (_ & _ & H & _); discriminate]]. }
  destruct (exec (limits_command user tl)) as [e2|c2 o2 er2]; cbn [call_succeeded].
  { split; [reflexivity|split; [discriminate|intros (_ & _ & _ & H); discriminate]]. }
  destruct (c2 =? 0).
  - split; [reflexivity|split; [intros _; repeat split; congruence|reflexivity]].
  - split; [reflexivity|split; [discriminate|intros (_ & _ & _ & H); discriminate]].
Qed.

Lemma digits_value_acc_nonneg (s : string) (acc : Z) :
  0 <= acc -> all_digits s = true -> 0 <= digits_value_acc s acc.
Proof.
  revert acc; induction s as [|c s IH]; intros acc Hacc Hd; cbn [digits_value_acc]; [lia|].
  cbn [all_digits] in Hd. apply andb_true_iff in Hd as [Hc Hd].
  apply IH; [|exact Hd].
  unfold is_ascii_digit in Hc. cbv zeta in Hc. apply andb_true_iff in Hc as [Hc _].
  apply Nat.leb_le in Hc. lia.
Qed.

Lemma parse_time_to_hour_range (s : string) (h : Z) :
  parse_time_to_hour s = Some h -> 0 <= h <= 23.
Proof.
  unfold parse_time_to_hour.
  destruct (split_char ":" s) as [|hs rest]; [discriminate|].
  unfold parse_uint.
  match goal with |- context [if ?b then None else _] => destruct b eqn:Hb end;
    [discriminate|].
  apply orb_false_iff in Hb as [_ Hb]. apply negb_false_iff in Hb.
  match goal with |- context [digits_value ?ds <=? 255] =>
    pose proof (digits_value_acc_nonneg ds 0 (Z.le_refl 0) Hb) as Hn;
    destruct (digits_value ds <=? 255); [|discriminate] end.
  destruct (_ <=? 23) eqn:E; [|discriminate].
  intros H; injection H as <-. apply Z.leb_le in E. unfold digits_value in *. lia.
Qed.

Lemma hours_loop_range (fuel : nat) (s e : Z) :
  0 <= s -> e <= 23 -> (Z.to_nat (e - s) <= fuel)%nat ->
  hours_loop fuel s e = map z_to_string (range s e).
Proof.
  revert s; induction fuel as [|fuel IH]; intros s Hs He Hf.
  - unfold range. replace (Z.to_nat (e - s)) with O by lia. reflexivity.
  - cbn [hours_loop]. destruct (Z.ltb_spec s e) as [Hlt|Hge].
    + rewrite CodecExtra.range_cons by exact Hlt. cbn [map]. f_equal.
      destruct (Z.ltb_spec 23 (s + 1)); [lia|].
      apply IH; lia.
    + unfold range. replace (Z.to_nat (e - s)) with O by lia. reflexivity.
Qed.

Lemma l_run_sent (exec : remote) (n c : string) (st : lstate) :
  l_sent (l_run exec n c st) = l_sent st ++ [c].
Proof.
  unfold l_run. destruct (exec c) as [e|k o er]; [reflexivity|].
  destruct (k =? 0); reflexivity.
Qed.

Lemma l_run_success (exec : remote) (n c : string) (st : lstate) :
  l_success (l_run exec n c st) = l_success st + (if call_succeeded (exec c) then 1 else 0).
Proof.
  unfold l_run. destruct (exec c) as [e|k o er]; cbn [call_succeeded]; [cbn; lia|].
  destruct (k =? 0); cbn; lia.
Qed.

(** X10: in [set_weekly_allowed_hours] of src/ssh.rs, a day given as
    [(start, end)] whose times parse to hours [s] and [e] gets one
    [--setallowedhours] command listing the hours [s, s+1, ..., e-1] when
    [s < e]; when [e <= s] the day is skipped without any command, error or
    success (a window inside one hour, such as 09:00-09:45, is dropped). *)
Theorem legacy_hours_day_window (exec : remote) (user : string)
    (m : gmap string (string * string)) (st : lstate) (name : string) (num : Z)
    (a b : string) (s e : Z) :
  m !! name = Some (a, b) ->
  parse_time_to_hour a = Some s -> parse_time_to_hour b = Some e ->
  (e <= s -> LegacySsh.hours_day exec user m st (name, num) = st) /\
  (s < e -> l_sent (LegacySsh.hours_day exec user m st (name, num)) =
            l_sent st ++ [Hours.hours_command user num (join ";" (map z_to_string (range s e)))]).
Proof.
  intros Hm Ha Hb.
  pose proof (parse_time_to_hour_range a s Ha) as Hs.
  pose proof (parse_time_to_hour_range b e Hb) as He.
  unfold LegacySsh.hours_day. rewrite Hm, Ha, Hb.
  rewrite (hours_loop_range 24 s e) by lia.
  split; intros Hse.
  - unfold range. replace (Z.to_nat (e - s)) with O by lia. reflexivity.
  - destruct (map z_to_string (range s e)) as [|x xs] eqn:Hr.
    + rewrite (CodecExtra.range_cons s e Hse) in Hr. discriminate.
    + rewrite l_run_sent. reflexivity.
Qed.

Lemma legacy_hours_day_window_witness :
  (9 <= 9 -> LegacySsh.hours_day ExtraSamples.accept_all "alice"
               ExtraSamples.short_window_day (mkL 0 [] []) ("monday", 1)%string = mkL 0 [] []) /\
  (9 < 9 -> l_sent (LegacySsh.hours_day ExtraSamples.accept_all "alice"
               ExtraSamples.short_window_day (mkL 0 [] []) ("monday", 1)%string) =
            [] ++ [Hours.hours_command "alice" 1 (join ";" (map z_to_string (range 9 9)))]).
Proof.
  apply (legacy_hours_day_window ExtraSamples.accept_all "alice" ExtraSamples.short_window_day
           (mkL 0 [] []) "monday" 1 "09:00" "09:45" 9 9); reflexivity.
Defined.

Lemma hours_day_empty (exec : remote) (user : string) (st : lstate) (name : string) (num : Z) :
  LegacySsh.hours_day exec user ∅ st (name, num) =
    l_run exec name (Hours.hours_command user num Hours.full_day_hours) st.
Proof. unfold LegacySsh.hours_day. rewrite lookup_empty. reflexivity. Qed.

Lemma fold_hours_day_empty (exec : remote) (user : string)
    (ds : list (string * Z)) (st : lstate) :
  0 <= l_success st ->
  l_sent (fold_left (LegacySsh.hours_day exec user ∅) ds st) =
    l_sent st ++ map (fun '(_, d) => Hours.hours_command user d Hours.full_day_hours) ds /\
  (0 <? l_success (fold_left (LegacySsh.hours_day exec user ∅) ds st)) =
    (0 <? l_success st) ||
    existsb (fun c => call_succeeded (exec c))
      (map (fun '(_, d) => Hours.hours_command user d Hours.full_day_hours) ds).
Proof.
  revert st; induction ds as [|[n d] ds IH]; intros st Hst; cbn [fold_left map existsb].
  - rewrite app_nil_r, orb_false_r. split; reflexivity.
  - rewrite hours_day_empty.
    set (c := Hours.hours_command user d Hours.full_day_hours).
    assert (Hst' : 0 <= l_success (l_run exec n c st))
      by (rewrite l_run_success; destruct (call_succeeded _); lia).
    destruct (IH (l_run exec n c st) Hst') as [H1 H2].
    rewrite H1, H2, l_run_sent, l_run_success, <- app_assoc. split; [reflexivity|].
    rewrite orb_assoc. f_equal.
    destruct (call_succeeded (exec c)); cbn [orb].
    + rewrite orb_true_r. apply Z.ltb_lt. lia.
    + rewrite Z.add_0_r, orb_false_r. reflexivity.
Qed.

(** X11: with an empty interval map (and a key found),
    [set_weekly_allowed_hours] of src/ssh.rs sends the full-day command
    (hours 0..23) for each of the days 1..7 in order, and reports
    [ok = true] exactly when at least one of them exited with 0. *)
Theorem legacy_set_weekly_allowed_hours_no_intervals (exec : remote) (user : string) :
  let cmds := map (fun '(_, d) => Hours.hours_command user d Hours.full_day_hours) days in
  fst (set_weekly_allowed_hours true exec user ∅) = cmds /\
  fst (snd (set_weekly_allowed_hours true exec user ∅)) =
    existsb (fun c => call_succeeded (exec c)) cmds.
Proof.
  cbv zeta. unfold set_weekly_allowed_hours. cbn [negb fst snd].
  destruct (fold_hours_day_empty exec user days (mkL 0 [] []) (Z.le_refl 0)) as [H1 H2].
  cbn [l_sent l_success] in H1, H2. split; [exact H1|].
  cbn [Z.ltb Z.compare orb] in H2. rewrite H2.
  destruct (existsb _ _); reflexivity.
Qed.

End LegacyExtra.

(* ------------------------------------------------------------------ *)
(** ** The weekly schedule row (src/database/models.rs,
    src/services/scheduler.rs) *)

Module RowExtra.
Import Remote Weekly WeeklyRow.

(** X12: reading back a schedule stored by [create_or_update] with
    [get_schedule_dict] gives, for each of the seven weekday names, the hours
    submitted for it or [0.0] when it was missing; every other key
    (including misspelt or capitalised day names) is dropped. *)
Theorem get_schedule_dict_create_or_update (row_id uid now : Z)
    (schedule : gmap string float) (d : string) :
  get_schedule_dict (create_or_update row_id uid now schedule) !! d =
    if existsb (String.eqb d) day_order then Some (hours_or_zero schedule d) else None.
Proof.
  unfold get_schedule_dict, create_or_update. cbn [monday_hours tuesday_hours
    wednesday_hours thursday_hours friday_hours saturday_hours sunday_hours].
  rewrite !lookup_insert, lookup_empty. cbn [existsb day_order].
  repeat (destruct (decide (_ = d)) as [<-|]; [reflexivity|]).
  repeat match goal with H : ?k <> d |- _ =>
    apply not_eq_sym, String.eqb_neq in H; rewrite H; clear H end.
  reflexivity.
Qed.

Lemma get_schedule_dict_days (s : UserWeeklySchedule) :
  get_schedule_dict s !! "monday"%string = Some (monday_hours s) /\
  get_schedule_dict s !! "tuesday"%string = Some (tuesday_hours s) /\
  get_schedule_dict s !! "wednesday"%string = Some (wednesday_hours s) /\
  get_schedule_dict s !! "thursday"%string = Some (thursday_hours s) /\
  get_schedule_dict s !! "friday"%string = Some (friday_hours s) /\
  get_schedule_dict s !! "saturday"%string = Some (saturday_hours s) /\
  get_schedule_dict s !! "sunday"%string = Some (sunday_hours s).
Proof. repeat split. Qed.

(** X13: a stored, unsynced weekly schedule with no day above 0 hours is
    never sent and never marked synced by the scheduler's weekly sync
    ([set_weekly_time_limits] refuses it without a remote call), so it is
    retried on every tick. *)
Theorem sync_weekly_nonpositive_never_synced (now : Z) (exec : remote) (user : string)
    (s : UserWeeklySchedule) :
  is_synced s = false ->
  forallb (fun h => negb (PrimFloat.ltb 0%float h))
    [monday_hours s; tuesday_hours s; wednesday_hours s; thursday_hours s;
     friday_hours s; saturday_hours s; sunday_hours s] = true ->
  sync_weekly now exec user (Some s) = ([], Some s).
Proof.
  intros Hs Hh.
  destruct (get_schedule_dict_days s) as (L1 & L2 & L3 & L4 & L5 & L6 & L7).
  cbn [forallb] in Hh. rewrite !andb_true_iff, !negb_true_iff in Hh.
  destruct Hh as (E1 & E2 & E3 & E4 & E5 & E6 & E7 & _).
  unfold sync_weekly. rewrite Hs. cbn [negb].
  unfold set_weekly_time_limits, weekly_args.
  rewrite WeeklyFacts.fold_day_step.
  unfold enumerate, day_order. cbn [length seq combine].
  simpl omap. unfold select_day.
  rewrite L1, L2, L3, L4, L5, L6, L7, E1, E2, E3, E4, E5, E6, E7.
  reflexivity.
Qed.

Lemma sync_weekly_nonpositive_never_synced_witness :
  sync_weekly 0 ExtraSamples.accept_all "alice" (Some ExtraSamples.zero_row) =
    ([], Some ExtraSamples.zero_row).
Proof.
  apply sync_weekly_nonpositive_never_synced; vm_compute; reflexivity.
Defined.

End RowExtra.

(* ------------------------------------------------------------------ *)
(** ** The interval update handler (src/handlers/api.rs) *)

Module ApiExtra.
Import Str Codec Api ExtraSamples.

Lemma update_loop_written (uid now : Z) (entries : list (string * interval_data)) (st : store) :
  forall k w, snd (update_loop uid now entries st) !! k = Some w ->
    st !! k = Some w \/
    (1 <= k <= 7 /\ day_of_week w = k /\ user_id w = uid /\
     is_valid_interval w = true /\ is_synced w = false).
Proof.
  revert st; induction entries as [|[ds d] rest IH]; intros st k w H; cbn [update_loop] in H.
  - left. exact H.
  - destruct (parse_i32 ds) as [day|]; [|exact (IH st k w H)].
    destruct ((1 <=? day) && (day <=? 7)) eqn:Hr; cbn [negb] in H; [|exact (IH st k w H)].
    destruct (is_valid_interval (temp_interval uid now day d)) eqn:Hv; cbn [negb] in H;
      [|left; exact H].
    destruct (IH _ k w H) as [Hk|Hk]; [|right; exact Hk].
    unfold upsert in Hk. rewrite lookup_insert in Hk.
    destruct (decide (day = k)) as [<-|Hne]; [|left; exact Hk].
    injection Hk as <-. right. apply andb_true_iff in Hr as [H1 H2].
    apply Z.leb_le in H1, H2. repeat split; try lia; try reflexivity. exact Hv.
Qed.

(** X14: every interval that [update_user_intervals] leaves in the store
    was either there before or was written by this request under a key
    [k] in 1..7: its [day_of_week] is [k], its [user_id] is the caller's,
    it passes [is_valid_interval], and it is marked unsynced.  Keys
    outside 1..7 and day strings that do not parse are never written. *)
Theorem update_user_intervals_stores_only_valid (uid now : Z)
    (intervals : option (list (string * interval_data))) (st : store) (k : Z)
    (w : UserDailyTimeInterval) :
  snd (update_user_intervals uid now intervals st) !! k = Some w ->
  st !! k = Some w \/
  (1 <= k <= 7 /\ day_of_week w = k /\ user_id w = uid /\
   is_valid_interval w = true /\ is_synced w = false).
Proof.
  destruct intervals as [entries|]; cbn [update_user_intervals snd].
  - apply update_loop_written.
  - intros H. left. exact H.
Qed.

Lemma update_user_intervals_stores_only_valid_witness :
  (∅ : store) !! 1 = Some (temp_interval 1 0 1 office_hours) \/
  (1 <= 1 <= 7 /\ day_of_week (temp_interval 1 0 1 office_hours) = 1 /\
   user_id (temp_interval 1 0 1 office_hours) = 1 /\
   is_valid_interval (temp_interval 1 0 1 office_hours) = true /\
   is_synced (temp_interval 1 0 1 office_hours) = false).
Proof.
  apply (update_user_intervals_stores_only_valid 1 0 (Some [("1"%string, office_hours)]) ∅ 1).
  reflexivity.
Defined.

Lemma update_loop_app (uid now : Z) (pre post : list (string * interval_data))
    (st st1 : store) :
  update_loop uid now pre st = (true, st1) ->
  update_loop uid now (pre ++ post) st = update_loop uid now post st1.
Proof.
  revert st; induction pre as [|[ds d] rest IH]; intros st H; cbn [update_loop app] in *.
  - congruence.
  - destruct (parse_i32 ds) as [day|]; [|apply IH; exact H].
    destruct (negb ((1 <=? day) && (day <=? 7))); [apply IH; exact H|].
    destruct (negb (is_valid_interval (temp_interval uid now day d))); [discriminate|].
    apply IH; exact H.
Qed.

(** X15: the update is not atomic: when an entry for a day in 1..7 fails
    [is_valid_interval], [update_user_intervals] answers
    ["success": false] but keeps every interval written by the entries
    processed before it; only the entries after it are dropped. *)
Theorem update_user_intervals_rejection_keeps_earlier_writes (uid now : Z)
    (pre post : list (string * interval_data)) (ds : string) (d : interval_data)
    (day : Z) (st st1 : store) :
  update_loop uid now pre st = (true, st1) ->
  parse_i32 ds = Some day -> 1 <= day <= 7 ->
  is_valid_interval (temp_interval uid now day d) = false ->
  update_user_intervals uid now (Some (pre ++ (ds, d) :: post)) st = (false, st1).
Proof.
  intros Hpre Hds Hday Hinv. cbn [update_user_intervals].
  rewrite (update_loop_app uid now pre _ st st1 Hpre). cbn [update_loop].
  rewrite Hds.
  replace ((1 <=? day) && (day <=? 7)) with true
    by (symmetry; apply andb_true_iff; split; apply Z.leb_le; lia).
  rewrite Hinv. reflexivity.
Qed.

Lemma update_user_intervals_rejection_keeps_earlier_writes_witness :
  update_user_intervals 1 0
    (Some ([("1"%string, office_hours)] ++ ("2"%string, inverted_hours) :: [])) ∅ =
  (false, <[1 := temp_interval 1 0 1 office_hours]> ∅).
Proof.
  apply (update_user_intervals_rejection_keeps_earlier_writes 1 0
           [("1"%string, office_hours)] [] "2" inverted_hours 2 ∅);
    [reflexivity|reflexivity|lia|reflexivity].
Defined.

(** X16: an interval submitted as an empty object for a day in 1..7 is
    stored with the handler's defaults: a disabled 9:00-17:00 window for
    that day, and the request succeeds. *)
Theorem update_user_intervals_empty_object (uid now : Z) (ds : string) (day : Z) (st : store) :
  parse_i32 ds = Some day -> 1 <= day <= 7 ->
  update_user_intervals uid now (Some [(ds, mkData None None None None None)]) st =
    (true, <[day := mkInterval 0 uid day 9 0 17 0 false false None now]> st).
Proof.
  intros Hds Hday. cbn [update_user_intervals update_loop]. rewrite Hds.
  replace ((1 <=? day) && (day <=? 7)) with true
    by (symmetry; apply andb_true_iff; split; apply Z.leb_le; lia).
  reflexivity.
Qed.

Lemma update_user_intervals_empty_object_witness :
  update_user_intervals 1 0 (Some [("3"%string, mkData None None None None None)]) ∅ =
    (true, <[3 := mkInterval 0 1 3 9 0 17 0 false false None 0]> ∅).
Proof.
  apply (update_user_intervals_empty_object 1 0 "3" 3 ∅); [reflexivity|lia].
Defined.

End ApiExtra.
